(** * Drift analysis: a shallow embedding of [src/data/drift_analysis.py]

    The script loads a reference table and a production table, keeps the
    last 100 production rows, runs a two-sample Kolmogorov-Smirnov test per
    feature, aggregates the scores and prints one JSON document.

    Modelling choices.
    - Python floats are IEEE binary64 values: Rocq's primitive [float], with
      the operations of [PrimFloat] (round-to-nearest-even, NaN, infinities
      and signed zeros included).
    - Python [int]s that count things ([len], [significant_drifts]) are [nat].
    - A pandas [DataFrame] is its column index and its rows in input order.
    - Exceptions are values: the body of the [try] runs in the error monad
      [result], the [except] clause turns a raised exception into the error
      document.
    - Standard output is the list of documents printed, in order.
    - pandas, numpy and scipy are not part of the repository: what the
      script calls from them is the interface [Libs]. *)

From Stdlib Require Import Floats ZArith QArith Qabs Qminmax Qreduction.
From Stdlib Require Import List String Bool Lia Arith DecimalString.
Import ListNotations.

Set Warnings "-inexact-float".

Close Scope Q_scope.
Local Open Scope string_scope.
Local Open Scope list_scope.
Local Open Scope nat_scope.

(** ** Exceptions and the error monad *)

(** The exceptions the [try] block can see.  [KeyError] is what
    [df[feature]] raises on a missing column; everything raised inside a
    library call is a [LibraryError] carrying the text [str(e)] shows. *)
Inductive exception : Type :=
| KeyError (key : string)
| LibraryError (msg : string).

(** [str(e)]: a [KeyError] prints the repr of its key. *)
Definition str (e : exception) : string :=
  match e with
  | KeyError key => "'" ++ key ++ "'"
  | LibraryError msg => msg
  end.

Inductive result (A : Type) : Type :=
| Ok (a : A)
| Raise (e : exception).
Arguments Ok {A} a.
Arguments Raise {A} e.

Definition bind {A B : Type} (m : result A) (k : A -> result B) : result B :=
  match m with
  | Ok a => k a
  | Raise e => Raise e
  end.

Notation "x <- m ;; k" := (bind m (fun x => k))
  (at level 61, m at next level, right associativity).
Notation "' pat <- m ;; k" := (bind m (fun x => match x with pat => k end))
  (at level 61, pat pattern, m at next level, right associativity).

(** A [for] loop whose body may raise: the state is threaded through the
    items in order and the first exception ends the loop. *)
Fixpoint for_each {S A : Type} (body : S -> A -> result S)
    (items : list A) (st : S) : result S :=
  match items with
  | [] => Ok st
  | x :: rest => st' <- body st x ;; for_each body rest st'
  end.

(** ** Python numbers *)

(** [min(a, b)] on two arguments keeps [a] unless [b < a]. *)
Definition py_min (a b : float) : float :=
  if (b <? a)%float then b else a.

(** [a > b] on floats is [b < a]. *)
Definition gtb (a b : float) : bool := (b <? a)%float.

(** The float nearest to an integer (what [float(n)] and mixed arithmetic
    [x / n] use). *)
Definition float_of_Z (z : Z) : float :=
  SF2Prim (binary_normalize prec emax z 0 false).

Definition float_of_nat (n : nat) : float := float_of_Z (Z.of_nat n).

(** Decimal text of a count, as an f-string shows it. *)
Definition str_of_nat (n : nat) : string :=
  NilEmpty.string_of_uint (Nat.to_uint n).

(** ** DataFrames *)

Record DataFrame : Type := mkDataFrame {
  columns : list string;
  rows : list (list float)
}.

(** [len(df)]: the number of rows. *)
Definition len (df : DataFrame) : nat := List.length (rows df).

(** [df.tail(n)]: the last [n] rows, in input order. *)
Definition tail (n : nat) (df : DataFrame) : DataFrame :=
  {| columns := columns df;
     rows := match n with
             | O => []
             | _ => skipn (List.length (rows df) - n) (rows df)
             end |}.

Fixpoint index_of (name : string) (names : list string) : option nat :=
  match names with
  | [] => None
  | n :: rest =>
      if String.eqb name n then Some O
      else option_map S (index_of name rest)
  end.

(** [df[name].values]: the cells of one column, row by row; [KeyError] when
    the frame has no such column.  A row shorter than the header reads as
    NaN, as the reader pads it. *)
Definition getitem (df : DataFrame) (name : string) : result (list float) :=
  match index_of name (columns df) with
  | Some i => Ok (map (fun row => nth i row nan) (rows df))
  | None => Raise (KeyError name)
  end.

(** ** The libraries the script calls *)

Class Libs : Type := {
  (** [pd.read_csv(path)]: the table stored at [path], or the exception
      raised when it cannot be read. *)
  read_csv : string -> result DataFrame;
  (** [stats.ks_2samp(a, b)]: the pair (statistic, p-value). *)
  ks_2samp : list float -> list float -> result (float * float);
  (** [a.mean()] and [a.std()] of a numpy array. *)
  np_mean : list float -> float;
  np_std : list float -> float
}.

(** ** The documents *)

Record FeatureDriftResult : Type := mkFeature {
  ks_statistic : float;
  p_value : float;
  drift_score : float;
  is_significant : bool;
  drift_detected : bool;
  reference_mean : float;
  production_mean : float;
  reference_std : float;
  production_std : float
}.

(** A Python dict with string keys: insertion-ordered, assignment to a key
    that is present replaces its value in place. *)
Definition dict (V : Type) : Type := list (string * V).

Fixpoint dict_set {V : Type} (k : string) (v : V) (d : dict V) : dict V :=
  match d with
  | [] => [(k, v)]
  | (k', v') :: rest =>
      if String.eqb k k' then (k, v) :: rest
      else (k', v') :: dict_set k v rest
  end.

Definition keys {V : Type} (d : dict V) : list string := map fst d.

Record DriftAnalysis : Type := mkDriftAnalysis {
  overall_drift_score : float;
  drift_severity : string;
  significant_drifts : nat;
  total_features : nat;
  feature_analysis : dict FeatureDriftResult
}.

Record DataSummary : Type := mkDataSummary {
  reference_samples : nat;
  production_samples : nat;
  analysis_limit : nat
}.

Record MonitoringStatus : Type := mkMonitoringStatus {
  level : string;
  requires_attention : bool
}.

Record AnalysisResults : Type := mkAnalysisResults {
  drift_analysis : DriftAnalysis;
  data_summary : DataSummary;
  recommendations : list string;
  monitoring_status : MonitoringStatus
}.

Record ErrorResult : Type := mkErrorResult {
  error : string;
  details : string;
  recommendation : string
}.

(** What one [print(json.dumps(...))] writes. *)
Inductive document : Type :=
| Report (r : AnalysisResults)
| Failure (e : ErrorResult).

(** The top-level keys of a printed document. *)
Definition top_level_keys (d : document) : list string :=
  match d with
  | Report _ =>
      ["drift_analysis"; "data_summary"; "recommendations"; "monitoring_status"]
  | Failure _ => ["error"; "details"; "recommendation"]
  end.

Definition has_key (d : document) (k : string) : Prop :=
  In k (top_level_keys d).

(** ** The program *)

Definition reference_path : string :=
  "/Users/f/Library/CloudStorage/Dropbox/Projects/Inflection Group/be3/projects/ai-backends-ts/data/reference_data.csv".

Definition production_path : string :=
  "/Users/f/Library/CloudStorage/Dropbox/Projects/Inflection Group/be3/projects/ai-backends-ts/data/production_requests.csv".

Definition feature_columns : list string :=
  ["sepal_length"; "sepal_width"; "petal_length"; "petal_width"].

(** Lines 21-22: keep only the most recent samples. *)
Definition window (production_df : DataFrame) : DataFrame :=
  if 100 <? len production_df then tail 100 production_df
  else production_df.

(** The variables the loop of lines 32-58 updates. *)
Record loop_state : Type := mkLoopState {
  st_drift_results : dict FeatureDriftResult;
  st_overall_drift_score : float;
  st_significant_drifts : nat
}.

(** Lines 28-30. *)
Definition initial_state : loop_state :=
  {| st_drift_results := [];
     st_overall_drift_score := 0%float;
     st_significant_drifts := 0 |}.

Section Program.

Context {L : Libs}.

(** Lines 33-58: one iteration of the loop. *)
Definition loop_body (reference_df production_df : DataFrame)
    (st : loop_state) (feature : string) : result loop_state :=
  ref_data <- getitem reference_df feature ;;
  prod_data <- getitem production_df feature ;;
  '(ks_stat, p_val) <- ks_2samp ref_data prod_data ;;
  let score := py_min (ks_stat * 2)%float 1%float in
  let overall := (st_overall_drift_score st + score)%float in
  let significant := (p_val <? 0.05)%float in
  let count :=
    if significant then st_significant_drifts st + 1
    else st_significant_drifts st in
  Ok {| st_drift_results :=
          dict_set feature
            {| ks_statistic := ks_stat;
               p_value := p_val;
               drift_score := score;
               is_significant := significant;
               drift_detected := gtb ks_stat 0.1%float;
               reference_mean := np_mean ref_data;
               production_mean := np_mean prod_data;
               reference_std := np_std ref_data;
               production_std := np_std prod_data |}
            (st_drift_results st);
        st_overall_drift_score := overall;
        st_significant_drifts := count |}.

(** Line 62. *)
Definition severity_of (overall : float) : string :=
  if (overall <? 0.2)%float then "low"
  else if (overall <? 0.5)%float then "medium"
  else "high".

(** Line 90. *)
Definition level_of (overall : float) : string :=
  if (overall <? 0.2)%float then "normal"
  else if (overall <? 0.5)%float then "warning"
  else "critical".

(** Line 91. *)
Definition attention_of (significant : nat) (overall : float) : bool :=
  (0 <? significant) || gtb overall 0.3%float.

Definition msg_significant (significant : nat) : string :=
  "🚨 Detected significant drift in " ++ str_of_nat significant ++ " feature(s)".
Definition msg_retrain : string :=
  "Consider retraining the model with recent data".
Definition msg_monitor : string :=
  "Monitor model performance metrics closely".
Definition msg_stable : string :=
  "✅ Data distribution is stable".

(** Lines 65-72: three [if] statements in a row, each appending to the
    list. *)
Definition recommendations_of (significant : nat) (overall : float)
    : list string :=
  let recs := [] in
  let recs :=
    if 0 <? significant
    then (recs ++ [msg_significant significant]) ++ [msg_retrain]
    else recs in
  let recs :=
    if gtb overall 0.3%float then recs ++ [msg_monitor] else recs in
  let recs :=
    if (overall <? 0.1)%float then recs ++ [msg_stable] else recs in
  recs.

(** Lines 13-93: the body of the [try], up to the value handed to
    [json.dumps]. *)
Definition analyze_body : result AnalysisResults :=
  reference_df <- read_csv reference_path ;;
  production_df <- read_csv production_path ;;
  let production_df := window production_df in
  st <- for_each (loop_body reference_df production_df)
          feature_columns initial_state ;;
  let overall :=
    (st_overall_drift_score st
       / float_of_nat (List.length feature_columns))%float in
  let severity := severity_of overall in
  let recs := recommendations_of (st_significant_drifts st) overall in
  Ok {| drift_analysis :=
          {| overall_drift_score := overall;
             drift_severity := severity;
             significant_drifts := st_significant_drifts st;
             total_features := List.length feature_columns;
             feature_analysis := st_drift_results st |};
        data_summary :=
          {| reference_samples := len reference_df;
             production_samples := len production_df;
             analysis_limit := 100 |};
        recommendations := recs;
        monitoring_status :=
          {| level := level_of overall;
             requires_attention :=
               attention_of (st_significant_drifts st) overall |} |}.

(** Lines 97-102: the document built in the [except] clause. *)
Definition error_result (e : exception) : ErrorResult :=
  {| error := "Python drift analysis failed";
     details := str e;
     recommendation :=
       "Check Python environment and required packages (pandas, numpy, scipy)" |}.

(** [analyze_drift()]: everything the run prints. *)
Definition analyze_drift : list document :=
  match analyze_body with
  | Ok analysis_results => [Report analysis_results]
  | Raise e => [Failure (error_result e)]
  end.

End Program.

(** ** A model of the numeric libraries

    scipy's [ks_2samp] and numpy's [mean] and [std] are called by the
    script and defined outside the repository.  This module models them
    from what the specification says of them, so that the program can be
    run on sample tables and so that what the specification promises for
    identical samples can be stated. *)

Module Model.

(** *** The two-sample Kolmogorov-Smirnov test *)

(** Modelled from the spec: part of the statistic of
    [scipy.stats.ks_2samp].  How many values of the sample are at most
    [t]. *)
Definition count_le (xs : list float) (t : float) : nat :=
  List.length (filter (fun x => (x <=? t)%float) xs).

(** Modelled from the spec: part of the statistic of
    [scipy.stats.ks_2samp].  The empirical cumulative distribution
    function of a sample, as an exact fraction. *)
Definition ecdf (xs : list float) (t : float) : Q :=
  Z.of_nat (count_le xs t) # Pos.of_nat (List.length xs).

(** Modelled from the spec: the statistic of [scipy.stats.ks_2samp], which
    the repository only calls.  D is the maximum distance between the two
    samples' empirical cumulative distribution functions; the maximum is
    reached at a sample point. *)
Definition ks_distance (xs ys : list float) : Q :=
  fold_right Qmax 0%Q
    (map (fun t => Qabs (ecdf xs t - ecdf ys t)) (xs ++ ys)).

(** Modelled from the spec: part of the p-value of
    [scipy.stats.ks_2samp].  The distance between the two empirical
    distribution functions once [i] values of the first sample (of size
    [n]) and [j] of the second (of size [m]) have been passed. *)
Definition gap (n m i j : nat) : Q :=
  Qabs ((Z.of_nat i # Pos.of_nat n) - (Z.of_nat j # Pos.of_nat m)).

(** Modelled from the spec: part of the p-value of
    [scipy.stats.ks_2samp].  That distance is strictly below [d]. *)
Definition below (n m : nat) (d : Q) (i j : nat) : bool :=
  negb (Qle_bool d (gap n m i j)).

(** Modelled from the spec: part of the p-value of
    [scipy.stats.ks_2samp].  Counting interleavings row by row: [above]
    holds, for j = 0, 1, ... values of the second sample, the number of
    admissible interleavings with one value fewer of the first sample;
    [left] is the number just computed for [j] - 1.  An interleaving ends with a value of the first
    sample or with one of the second, and is admissible only where [ok]
    holds. *)
Fixpoint next_counts (ok : nat -> bool) (j : nat) (left : Z)
    (above : list Z) : list Z :=
  match above with
  | [] => []
  | a :: above' =>
      let c := if ok j then (a + left)%Z else 0%Z in
      c :: next_counts ok (S j) c above'
  end.

(** Modelled from the spec: part of the p-value of
    [scipy.stats.ks_2samp].  The row reached after [todo] more values of
    the first sample, [i] of them being already counted in [above]. *)
Fixpoint count_rows (ok : nat -> nat -> bool) (todo i : nat)
    (above : list Z) : list Z :=
  match todo with
  | O => above
  | S todo' => count_rows ok todo' (S i) (next_counts (ok i) 0 0%Z above)
  end.

(** Modelled from the spec: part of the p-value of
    [scipy.stats.ks_2samp].  The number of ways to interleave [n] values of one sample with [m] of
    the other such that every prefix of the interleaving, the empty one and
    the whole included, satisfies [ok]. *)
Definition interleavings (ok : nat -> nat -> bool) (n m : nat) : Z :=
  last (count_rows ok (S n) 0 (1%Z :: repeat 0%Z m)) 0%Z.

(** Modelled from the spec: the p-value of [scipy.stats.ks_2samp].  Under
    the null hypothesis that both samples are drawn from the same
    distribution every interleaving of the pooled sample is equally likely;
    the p-value is the probability that the statistic is at least the
    observed [d], one minus the share of interleavings that stay strictly
    below [d]. *)
Definition ks_pvalue (n m : nat) (d : Q) : Q :=
  (1 - inject_Z (interleavings (below n m d) n m)
       / inject_Z (interleavings (fun _ _ => true) n m))%Q.

(** Modelled from the spec: the conversion of an exact statistic or
    p-value to the float [scipy.stats.ks_2samp] returns, the quotient of
    the reduced fraction's numerator and denominator. *)
Definition float_of_Q (q : Q) : float :=
  let r := Qred q in
  (float_of_Z (Qnum r) / float_of_Z (Z.pos (Qden r)))%float.

(** Modelled from the spec: [scipy.stats.ks_2samp], which the repository
    only calls.  The test fails when either sample is empty; otherwise it
    yields the statistic and the p-value. *)
Definition ks_2samp (xs ys : list float) : result (float * float) :=
  match xs, ys with
  | [], _ | _, [] =>
      Raise (LibraryError "Data passed to ks_2samp must not be empty")
  | _, _ =>
      let d := ks_distance xs ys in
      Ok (float_of_Q d,
          float_of_Q (ks_pvalue (List.length xs) (List.length ys) d))
  end.

(** *** Descriptive statistics *)

(** Modelled from the spec: numpy's [mean], the arithmetic mean of the
    sample. *)
Definition mean (xs : list float) : float :=
  (fold_left PrimFloat.add xs 0 / float_of_nat (List.length xs))%float.

(** Modelled from the spec: numpy's [std], the population standard
    deviation of the sample. *)
Definition std (xs : list float) : float :=
  let mu := mean xs in
  PrimFloat.sqrt (mean (map (fun x => ((x - mu) * (x - mu))%float) xs)).

(** Modelled from the spec: the three library functions above, over a
    given file system. *)
Definition libs (files : string -> result DataFrame) : Libs :=
  Build_Libs files ks_2samp mean std.

End Model.

(** ** Vocabulary of the statements *)

(** [x == x] holds exactly when [x] is not NaN. *)
Definition is_number (x : float) : Prop := (x =? x)%float = true.


(** The sum of the drift scores of the entries, added to [start] from left
    to right in floating point, as the loop accumulates it. *)
Definition sum_scores (fa : dict FeatureDriftResult) (start : float) : float :=
  fold_left (fun acc entry => (acc + drift_score (snd entry))%float) fa start.

(** The number of entries whose [is_significant] flag is set. *)
Definition count_significant (fa : dict FeatureDriftResult) : nat :=
  List.length (filter (fun entry => is_significant (snd entry)) fa).

(** [r] is what one iteration of the loop stores for [feature]. *)
Definition analysed {L : Libs} (reference_df production_df : DataFrame)
    (feature : string) (r : FeatureDriftResult) : Prop :=
  exists ref_data prod_data,
    getitem reference_df feature = Ok ref_data /\
    getitem production_df feature = Ok prod_data /\
    ks_2samp ref_data prod_data = Ok (ks_statistic r, p_value r) /\
    drift_score r = py_min (ks_statistic r * 2)%float 1%float /\
    is_significant r = (p_value r <? 0.05)%float /\
    drift_detected r = (0.1 <? ks_statistic r)%float /\
    reference_mean r = np_mean ref_data /\
    production_mean r = np_mean prod_data /\
    reference_std r = np_std ref_data /\
    production_std r = np_std prod_data.

(** The analysis of [feature] raises: a column is missing from either
    table, or the test cannot be computed on the two samples. *)
Definition feature_fails {L : Libs} (reference_df production_df : DataFrame)
    (feature : string) : Prop :=
  (exists e, getitem reference_df feature = Raise e) \/
  (exists e, getitem production_df feature = Raise e) \/
  (exists ref_data prod_data e,
      getitem reference_df feature = Ok ref_data /\
      getitem production_df feature = Ok prod_data /\
      ks_2samp ref_data prod_data = Raise e).

(** Some stage of the pipeline raises. *)
Definition pipeline_fails {L : Libs} : Prop :=
  (exists e, read_csv reference_path = Raise e) \/
  (exists e, read_csv production_path = Raise e) \/
  (exists reference_df production_df feature,
      read_csv reference_path = Ok reference_df /\
      read_csv production_path = Ok production_df /\
      In feature feature_columns /\
      feature_fails reference_df (window production_df) feature).

(** Every stage of the pipeline went through. *)
Definition pipeline_succeeds {L : Libs} : Prop :=
  exists reference_df production_df,
    read_csv reference_path = Ok reference_df /\
    read_csv production_path = Ok production_df /\
    forall feature, In feature feature_columns ->
      exists ref_data prod_data statistic p,
        getitem reference_df feature = Ok ref_data /\
        getitem (window production_df) feature = Ok prod_data /\
        ks_2samp ref_data prod_data = Ok (statistic, p).

(** ** Sample runs *)

Module Demo.

Local Open Scope float_scope.

Definition header : list string :=
  ["sepal_length"; "sepal_width"; "petal_length"; "petal_width"].

Definition reference : DataFrame :=
  {| columns := header;
     rows := [[5.1; 3.5; 1.4; 0.2];
              [4.9; 3.0; 1.4; 0.2];
              [6.2; 2.9; 4.3; 1.3];
              [5.9; 3.0; 5.1; 1.8]] |}.

(** Production requests that repeat the reference rows with every
    [petal_length] shifted by 10. *)
Definition production : DataFrame :=
  {| columns := header;
     rows := [[5.1; 3.5; 11.4; 0.2];
              [4.9; 3.0; 11.4; 0.2];
              [6.2; 2.9; 14.3; 1.3];
              [5.9; 3.0; 15.1; 1.8]] |}.

(** Production requests without the [petal_width] column. *)
Definition production_short : DataFrame :=
  {| columns := ["sepal_length"; "sepal_width"; "petal_length"];
     rows := [[5.1; 3.5; 1.4]; [7.9; 3.0; 6.4]] |}.

(** A header and no request. *)
Definition production_empty : DataFrame :=
  {| columns := header; rows := [] |}.

(** 250 requests, numbered in arrival order in the first column. *)
Definition production_long : DataFrame :=
  {| columns := header;
     rows := map (fun i => [float_of_nat i; 3.0; 1.4; 0.2]) (seq 0 250) |}.

(** A file system holding [reference] and the given production table. *)
Definition files (production_df : DataFrame) (path : string)
    : result DataFrame :=
  if String.eqb path reference_path then Ok reference
  else if String.eqb path production_path then Ok production_df
  else Raise (LibraryError "[Errno 2] No such file or directory").

(** A file system without the production file. *)
Definition files_missing (path : string) : result DataFrame :=
  if String.eqb path reference_path then Ok reference
  else Raise (LibraryError "[Errno 2] No such file or directory").

Definition libs (production_df : DataFrame) : Libs :=
  Model.libs (files production_df).

End Demo.

(** ** Vocabulary of the further properties *)

(** The exception the analysis of [feature] raises, if any: lines 33-37
    read the reference column, then the production column, then run the
    test. *)
Definition first_error {L : Libs} (reference_df production_df : DataFrame)
    (feature : string) : option exception :=
  match getitem reference_df feature with
  | Raise e => Some e
  | Ok ref_data =>
      match getitem production_df feature with
      | Raise e => Some e
      | Ok prod_data =>
          match ks_2samp ref_data prod_data with
          | Raise e => Some e
          | Ok _ => None
          end
      end
  end.

(** An entry without its four descriptive statistics. *)
Definition forget_descriptive_entry (r : FeatureDriftResult)
    : FeatureDriftResult :=
  {| ks_statistic := ks_statistic r;
     p_value := p_value r;
     drift_score := drift_score r;
     is_significant := is_significant r;
     drift_detected := drift_detected r;
     reference_mean := 0%float;
     production_mean := 0%float;
     reference_std := 0%float;
     production_std := 0%float |}.

Definition forget_descriptive_dict (d : dict FeatureDriftResult)
    : dict FeatureDriftResult :=
  map (fun entry => (fst entry, forget_descriptive_entry (snd entry))) d.

(** A printed document without the descriptive statistics of its
    entries. *)
Definition forget_descriptive (d : document) : document :=
  match d with
  | Report R =>
      Report
        {| drift_analysis :=
             {| overall_drift_score := overall_drift_score (drift_analysis R);
                drift_severity := drift_severity (drift_analysis R);
                significant_drifts := significant_drifts (drift_analysis R);
                total_features := total_features (drift_analysis R);
                feature_analysis :=
                  forget_descriptive_dict
                    (feature_analysis (drift_analysis R)) |};
           data_summary := data_summary R;
           recommendations := recommendations R;
           monitoring_status := monitoring_status R |}
  | Failure e => Failure e
  end.

Definition forget_descriptive_state (st : loop_state) : loop_state :=
  {| st_drift_results := forget_descriptive_dict (st_drift_results st);
     st_overall_drift_score := st_overall_drift_score st;
     st_significant_drifts := st_significant_drifts st |}.

(** More sample data. *)
Module Edge.

Local Open Scope float_scope.

(** 101 requests, numbered in arrival order in the first column. *)
Definition production_101 : DataFrame :=
  {| columns := Demo.header;
     rows := map (fun i => [float_of_nat i; 3.0; 1.4; 0.2]) (seq 0 101) |}.

(** The last 100 requests of [Demo.production_long], as a table of its
    own. *)
Definition production_recent : DataFrame :=
  {| columns := Demo.header;
     rows := map (fun i => [float_of_nat i; 3.0; 1.4; 0.2]) (seq 150 100) |}.

(** A test that answers NaN for the first column of [Demo.production]
    and is the model's test otherwise, as a library that propagates a
    missing value would. *)
Definition ks_nan (xs ys : list float) : result (float * float) :=
  match xs with
  | x :: _ => if (x =? 5.1) then Ok (nan, nan) else Model.ks_2samp xs ys
  | [] => Model.ks_2samp xs ys
  end.

Definition libs_nan : Libs :=
  Build_Libs (Demo.files Demo.production) ks_nan Model.mean Model.std.





(** A reference table without the [sepal_width] column. *)
Definition reference_short : DataFrame :=
  {| columns := ["sepal_length"; "petal_length"; "petal_width"];
     rows := [[5.1; 1.4; 0.2]; [4.9; 1.4; 0.2]] |}.

(** A file system whose reference table lacks [sepal_width] and whose
    production table lacks [petal_width]. *)
Definition files_short (path : string) : result DataFrame :=
  if String.eqb path reference_path then Ok reference_short
  else if String.eqb path production_path then Ok Demo.production_short
  else Raise (LibraryError "[Errno 2] No such file or directory").

End Edge.

(** * Facts about binary64 comparisons and rounding *)

Section FloatOrder.

Local Open Scope float_scope.

Lemma SFcompare_antisym (x y : spec_float) :
  SFcompare y x = option_map CompOpp (SFcompare x y).
Proof.
  destruct x as [sx|sx| |sx mx ex], y as [sy|sy| |sy my ey]; simpl;
    try destruct sx; try destruct sy; simpl; try reflexivity;
    change (PosDef.Pos.compare_cont Eq) with Pos.compare;
    rewrite (Z.compare_antisym ex ey), (Pos.compare_antisym mx my);
    destruct (ex ?= ey)%Z; simpl; try reflexivity;
    destruct (mx ?= my)%positive; reflexivity.
Qed.

Lemma SFcompare_refl (x : spec_float) :
  x <> S754_nan -> SFcompare x x = Some Eq.
Proof.
  destruct x as [sx|sx| |sx mx ex]; simpl; intros Hx;
    try congruence; try (destruct sx; reflexivity).
  change (PosDef.Pos.compare_cont Eq) with Pos.compare.
  rewrite Z.compare_refl, Pos.compare_refl. destruct sx; reflexivity.
Qed.

Lemma SFcompare_some_l (x y : spec_float) (c : comparison) :
  SFcompare x y = Some c -> x <> S754_nan.
Proof. destruct x; simpl; congruence. Qed.

Lemma SFcompare_some_r (x y : spec_float) (c : comparison) :
  SFcompare x y = Some c -> y <> S754_nan.
Proof. destruct x, y; simpl; congruence. Qed.

Lemma SFltb_trans (x y z : spec_float) :
  SFltb x y = true -> SFltb y z = true -> SFltb x z = true.
Proof.
  unfold SFltb.
  destruct x as [sx|sx| |sx mx ex], y as [sy|sy| |sy my ey],
           z as [sz|sz| |sz mz ez]; simpl;
    try destruct sx; try destruct sy; try destruct sz; simpl;
    try congruence;
    change (PosDef.Pos.compare_cont Eq) with Pos.compare;
    destruct (Z.compare_spec ex ey), (Z.compare_spec ey ez),
             (Z.compare_spec ex ez); simpl; try congruence; try lia;
    subst;
    destruct (Pos.compare_spec mx my), (Pos.compare_spec my mz),
             (Pos.compare_spec mx mz); simpl; try congruence; try lia.
Qed.

Lemma is_number_spec (x : float) :
  is_number x <-> Prim2SF x <> S754_nan.
Proof.
  unfold is_number. rewrite FloatAxioms.eqb_spec. unfold SFeqb. split.
  - intros H E. rewrite E in H. discriminate.
  - intros H. now rewrite SFcompare_refl.
Qed.

Lemma ltb_is_number (x y : float) :
  (x <? y) = true -> is_number x /\ is_number y.
Proof.
  rewrite FloatAxioms.ltb_spec, !is_number_spec. unfold SFltb.
  destruct (SFcompare (Prim2SF x) (Prim2SF y)) as [c|] eqn:E;
    [|discriminate].
  intros _. split;
    [eapply SFcompare_some_l | eapply SFcompare_some_r]; exact E.
Qed.


(** On numbers the order is total: not [x < y] means [y <= x]. *)
Lemma not_ltb_leb (x y : float) :
  is_number x -> is_number y -> (x <? y) = false -> (y <=? x) = true.
Proof.
  rewrite !is_number_spec, FloatAxioms.ltb_spec, FloatAxioms.leb_spec. unfold SFltb, SFleb.
  intros Hx Hy. rewrite (SFcompare_antisym (Prim2SF x) (Prim2SF y)).
  destruct (SFcompare (Prim2SF x) (Prim2SF y)) as [[| |]|] eqn:E;
    simpl; try congruence.
  destruct (Prim2SF x), (Prim2SF y); simpl in E; congruence.
Qed.

Lemma leb_not_ltb (x y : float) :
  (y <=? x) = true -> (x <? y) = false.
Proof.
  rewrite FloatAxioms.ltb_spec, FloatAxioms.leb_spec. unfold SFltb, SFleb.
  rewrite (SFcompare_antisym (Prim2SF x) (Prim2SF y)).
  destruct (SFcompare (Prim2SF x) (Prim2SF y)) as [[| |]|];
    simpl; congruence.
Qed.

Lemma ltb_trans (x y z : float) :
  (x <? y) = true -> (y <? z) = true -> (x <? z) = true.
Proof. rewrite !FloatAxioms.ltb_spec. apply SFltb_trans. Qed.

(** Nothing lies above 0.3 and below 0.1. *)
Lemma above_03_not_below_01 (x : float) :
  (0.3 <? x) = true -> (x <? 0.1) = false.
Proof.
  intros H. destruct (x <? 0.1) eqn:E; [|reflexivity].
  pose proof (ltb_trans _ _ _ H E) as T. vm_compute in T. discriminate.
Qed.

(** *** Rounding keeps the sign *)










End FloatOrder.

(** * The loop and the report *)

Section Loop.

Context {L : Libs}.
Variables reference_df production_df : DataFrame.

Lemma dict_set_fresh {V : Type} (k : string) (v : V) (d : dict V) :
  ~ In k (keys d) -> dict_set k v d = d ++ [(k, v)].
Proof.
  induction d as [|[k' v'] d IH]; simpl; intros H; [reflexivity|].
  destruct (String.eqb_spec k k') as [->|_].
  - exfalso. apply H. now left.
  - rewrite IH; [reflexivity|]. intros Hin. apply H. now right.
Qed.

Lemma bind_ok {A B : Type} (m : result A) (k : A -> result B) (b : B) :
  bind m k = Ok b -> exists a, m = Ok a /\ k a = Ok b.
Proof. destruct m as [a|e]; simpl; [eauto|discriminate]. Qed.

(** One iteration that does not raise stores an [analysed] entry and
    updates the two accumulators with it. *)
Lemma loop_body_ok (st st' : loop_state) (feature : string) :
  loop_body reference_df production_df st feature = Ok st' ->
  exists r,
    analysed reference_df production_df feature r /\
    st_drift_results st' = dict_set feature r (st_drift_results st) /\
    st_overall_drift_score st'
      = (st_overall_drift_score st + drift_score r)%float /\
    st_significant_drifts st'
      = st_significant_drifts st + (if is_significant r then 1 else 0).
Proof.
  unfold loop_body. intros H.
  apply bind_ok in H as (ref_data & Href & H).
  apply bind_ok in H as (prod_data & Hprod & H).
  apply bind_ok in H as ([ks_stat p_val] & Hks & H).
  injection H as <-.
  eexists (mkFeature ks_stat p_val _ _ _ _ _ _ _). split.
  - exists ref_data, prod_data. simpl. repeat split; assumption.
  - simpl. repeat split. destruct (p_val <? 0.05)%float; lia.
Qed.

(** One iteration raises exactly when the analysis of its feature fails. *)
Lemma loop_body_raise (st : loop_state) (feature : string) (e : exception) :
  loop_body reference_df production_df st feature = Raise e ->
  feature_fails reference_df production_df feature.
Proof.
  unfold loop_body, feature_fails.
  destruct (getitem reference_df feature) as [ref_data|e1] eqn:Href; simpl;
    [|eauto].
  destruct (getitem production_df feature) as [prod_data|e2] eqn:Hprod;
    simpl; [|eauto].
  destruct (ks_2samp ref_data prod_data) as [[ks_stat p_val]|e3] eqn:Hks;
    simpl; [discriminate|].
  intros _. right. right. exists ref_data, prod_data, e3. auto.
Qed.

Lemma feature_fails_not_analysed (feature : string) (r : FeatureDriftResult) :
  feature_fails reference_df production_df feature ->
  analysed reference_df production_df feature r -> False.
Proof.
  intros Hf (ref_data & prod_data & Href & Hprod & Hks & _).
  destruct Hf as [[e He]|[[e He]|(rd & pd & e & H1 & H2 & H3)]];
    congruence.
Qed.

(** The invariant of the loop: after the features of [features], none of
    which was a key before, the dict has gained one analysed entry per
    feature, in order, the score accumulator their scores and the counter
    the number of significant ones. *)
Lemma for_each_loop_body (features : list string) :
  forall st st',
    for_each (loop_body reference_df production_df) features st = Ok st' ->
    NoDup features ->
    (forall f, In f features -> ~ In f (keys (st_drift_results st))) ->
    exists entries,
      st_drift_results st' = st_drift_results st ++ entries /\
      keys entries = features /\
      Forall (fun entry =>
                analysed reference_df production_df (fst entry) (snd entry))
             entries /\
      st_overall_drift_score st'
        = sum_scores entries (st_overall_drift_score st) /\
      st_significant_drifts st'
        = st_significant_drifts st + count_significant entries.
Proof.
  induction features as [|f features IH]; simpl; intros st st' H Hnd Hfresh.
  - injection H as <-. exists []. rewrite app_nil_r.
    repeat split; auto.
  - apply bind_ok in H as (st1 & Hbody & H).
    apply loop_body_ok in Hbody as (r & Hr & Hres & Hsum & Hcnt).
    inversion Hnd as [|? ? Hnotin Hnd']; subst.
    rewrite dict_set_fresh in Hres by (apply Hfresh; now left).
    apply IH in H as (entries & E1 & E2 & E3 & E4 & E5); [|assumption|].
    + exists ((f, r) :: entries). repeat split.
      * rewrite E1, Hres, <- app_assoc. reflexivity.
      * simpl. now rewrite E2.
      * constructor; assumption.
      * rewrite E4, Hsum. reflexivity.
      * rewrite E5, Hcnt. unfold count_significant. simpl.
        destruct (is_significant r); simpl; lia.
    + intros g Hg. rewrite Hres. unfold keys. rewrite map_app, in_app_iff.
      simpl. intros [Hin|[<-|[]]].
      * apply (Hfresh g); [now right|exact Hin].
      * contradiction.
Qed.

(** If the loop raises, the analysis of one of its features fails. *)
Lemma for_each_loop_body_raise (features : list string) :
  forall st e,
    for_each (loop_body reference_df production_df) features st = Raise e ->
    exists f, In f features /\ feature_fails reference_df production_df f.
Proof.
  induction features as [|f features IH]; simpl; intros st e H;
    [discriminate|].
  destruct (loop_body reference_df production_df st f) as [st1|e1] eqn:Hb;
    simpl in H.
  - apply IH in H as (g & Hg & Hfail). exists g. auto.
  - exists f. split; [now left|]. eapply loop_body_raise, Hb.
Qed.

End Loop.

Section Report.

Context {L : Libs}.

Lemma feature_columns_nodup : NoDup feature_columns.
Proof.
  unfold feature_columns.
  repeat (constructor; [simpl; intros H; repeat destruct H as [H|H];
                        discriminate || contradiction|]).
  constructor.
Qed.

(** The printed document is the report exactly when the body of the [try]
    returns it. *)
Lemma analyze_drift_report (R : AnalysisResults) :
  analyze_drift = [Report R] <-> analyze_body = Ok R.
Proof.
  unfold analyze_drift. destruct analyze_body as [R'|e]; split; intros H;
    try discriminate; congruence.
Qed.

Lemma analyze_drift_failure (e : exception) :
  analyze_body = Raise e -> analyze_drift = [Failure (error_result e)].
Proof. unfold analyze_drift. intros ->. reflexivity. Qed.

(** What a run that returns its report has computed. *)
Lemma analyze_body_ok (R : AnalysisResults) :
  analyze_body = Ok R ->
  exists reference_df production_df,
    read_csv reference_path = Ok reference_df /\
    read_csv production_path = Ok production_df /\
    keys (feature_analysis (drift_analysis R)) = feature_columns /\
    Forall (fun entry =>
              analysed reference_df (window production_df)
                       (fst entry) (snd entry))
           (feature_analysis (drift_analysis R)) /\
    overall_drift_score (drift_analysis R)
      = (sum_scores (feature_analysis (drift_analysis R)) 0
           / float_of_nat (List.length feature_columns))%float /\
    significant_drifts (drift_analysis R)
      = count_significant (feature_analysis (drift_analysis R)) /\
    total_features (drift_analysis R) = List.length feature_columns /\
    drift_severity (drift_analysis R)
      = severity_of (overall_drift_score (drift_analysis R)) /\
    recommendations R
      = recommendations_of (significant_drifts (drift_analysis R))
                           (overall_drift_score (drift_analysis R)) /\
    level (monitoring_status R)
      = level_of (overall_drift_score (drift_analysis R)) /\
    requires_attention (monitoring_status R)
      = attention_of (significant_drifts (drift_analysis R))
                     (overall_drift_score (drift_analysis R)) /\
    data_summary R
      = {| reference_samples := len reference_df;
           production_samples := len (window production_df);
           analysis_limit := 100 |}.
Proof.
  unfold analyze_body. intros H.
  apply bind_ok in H as (reference_df & Href & H).
  apply bind_ok in H as (production_df & Hprod & H).
  apply bind_ok in H as (st & Hloop & H).
  cbv beta zeta in H. injection H as <-.
  exists reference_df, production_df.
  apply for_each_loop_body in Hloop
    as (entries & E1 & E2 & E3 & E4 & E5);
    [|apply feature_columns_nodup|intros f _ []].
  simpl in E1, E4, E5. simpl.
  rewrite E1, E4, E5. repeat split; assumption.
Qed.

(** A run whose body raises failed at some stage. *)
Lemma analyze_body_raise (e : exception) :
  analyze_body = Raise e -> pipeline_fails.
Proof.
  unfold analyze_body, pipeline_fails.
  destruct (read_csv reference_path) as [reference_df|e1] eqn:Href;
    cbn [bind]; [|eauto].
  destruct (read_csv production_path) as [production_df|e2] eqn:Hprod;
    cbn [bind]; [|eauto].
  cbv zeta.
  destruct (for_each (loop_body reference_df (window production_df))
              feature_columns initial_state) as [st|e3] eqn:Hloop;
    cbn [bind]; [intros H; discriminate H|].
  intros _. right. right.
  apply for_each_loop_body_raise in Hloop as (f & Hf & Hfail).
  exists reference_df, production_df, f. auto.
Qed.

Lemma entry_of_key {V : Type} (d : dict V) (k : string) :
  In k (keys d) -> exists v, In (k, v) d.
Proof.
  unfold keys. rewrite in_map_iff. intros ([k' v] & <- & Hin).
  exists v. exact Hin.
Qed.

(** A run with a failing stage does not return a report. *)
Lemma pipeline_fails_raise :
  pipeline_fails -> exists e, analyze_body = Raise e.
Proof.
  intros Hfail. destruct analyze_body as [R|e] eqn:E; [|eauto].
  exfalso. apply analyze_body_ok in E
    as (reference_df & production_df & Href & Hprod & Hkeys & Hall & _).
  destruct Hfail as [[e He]|[[e He]|(rdf & pdf & f & H1 & H2 & Hf & Hfail)]];
    try congruence.
  assert (rdf = reference_df) by congruence.
  assert (pdf = production_df) by congruence. subst.
  rewrite <- Hkeys in Hf. apply entry_of_key in Hf as (r & Hin).
  rewrite Forall_forall in Hall. specialize (Hall _ Hin). simpl in Hall.
  eapply feature_fails_not_analysed; eassumption.
Qed.

End Report.

(** * The claims *)

Section Aggregation.

Local Open Scope float_scope.

Lemma keys_four {V : Type} (d : dict V) (k1 k2 k3 k4 : string) :
  keys d = [k1; k2; k3; k4] ->
  exists v1 v2 v3 v4, d = [(k1, v1); (k2, v2); (k3, v3); (k4, v4)].
Proof.
  destruct d as [|[a1 v1] [|[a2 v2] [|[a3 v3] [|[a4 v4] [|? ?]]]]];
    simpl; intros H; try discriminate.
  injection H as -> -> -> ->. eauto.
Qed.

(** C2. The overall drift score of a printed report is the arithmetic mean
    of its four per-feature drift scores, each counted once: their sum,
    accumulated from 0 in the order of the features, divided by the number
    of features. *)
Theorem overall_score_is_mean {L : Libs} (R : AnalysisResults) :
  analyze_drift = [Report R] ->
  overall_drift_score (drift_analysis R)
    = sum_scores (feature_analysis (drift_analysis R)) 0
        / float_of_nat (List.length (feature_analysis (drift_analysis R))) /\
  exists r1 r2 r3 r4,
    feature_analysis (drift_analysis R)
      = [("sepal_length", r1); ("sepal_width", r2);
         ("petal_length", r3); ("petal_width", r4)] /\
    overall_drift_score (drift_analysis R)
      = (0 + drift_score r1 + drift_score r2
           + drift_score r3 + drift_score r4) / 4.
Proof.
  intros H. apply analyze_drift_report, analyze_body_ok in H
    as (reference_df & production_df & _ & _ & Hkeys & _ & Hmean & _).
  pose proof (keys_four _ _ _ _ _ Hkeys) as (r1 & r2 & r3 & r4 & E).
  rewrite Hmean, E. split; [reflexivity|].
  exists r1, r2, r3, r4. split; reflexivity.
Qed.

Lemma overall_score_is_mean_witness :
  exists R,
    analyze_drift (L := Demo.libs Demo.production) = [Report R] /\
    overall_drift_score (drift_analysis R)
      = sum_scores (feature_analysis (drift_analysis R)) 0
          / float_of_nat (List.length (feature_analysis (drift_analysis R))) /\
    overall_drift_score (drift_analysis R) = 0.25.
Proof.
  eexists. split; [vm_compute; reflexivity|].
  split; [|vm_compute; reflexivity].
  refine (proj1 (overall_score_is_mean (L := Demo.libs Demo.production)
                   _ _)).
  vm_compute; reflexivity.
Defined.

End Aggregation.

Section Tiers.

Local Open Scope float_scope.

Lemma severity_of_cases (x : float) :
  ((x <? 0.2) = true /\ severity_of x = "low"%string) \/
  ((x <? 0.2) = false /\ (x <? 0.5) = true
     /\ severity_of x = "medium"%string) \/
  ((x <? 0.2) = false /\ (x <? 0.5) = false
     /\ severity_of x = "high"%string).
Proof.
  unfold severity_of. destruct (x <? 0.2); [auto|].
  destruct (x <? 0.5); auto.
Qed.

Lemma level_of_cases (x : float) :
  ((x <? 0.2) = true /\ level_of x = "normal"%string) \/
  ((x <? 0.2) = false /\ (x <? 0.5) = true
     /\ level_of x = "warning"%string) \/
  ((x <? 0.2) = false /\ (x <? 0.5) = false
     /\ level_of x = "critical"%string).
Proof.
  unfold level_of. destruct (x <? 0.2); [auto|].
  destruct (x <? 0.5); auto.
Qed.

(** C3. The severity of a score is "low" when the score is strictly below
    0.2, "medium" when it is at least 0.2 and strictly below 0.5, and
    "high" in every other case; 0.2 itself is "medium" and 0.5 itself is
    "high".  The severity a report prints is the severity of the overall
    score it prints. *)
Theorem severity_tiers :
  (forall x : float,
      ((x <? 0.2) = true -> severity_of x = "low"%string) /\
      ((0.2 <=? x) = true -> (x <? 0.5) = true ->
       severity_of x = "medium"%string) /\
      ((x <? 0.2) = false ->
       ~ ((0.2 <=? x) = true /\ (x <? 0.5) = true) ->
       severity_of x = "high"%string)) /\
  severity_of 0.2 = "medium"%string /\
  severity_of 0.5 = "high"%string /\
  forall (L : Libs) (R : AnalysisResults),
    analyze_drift = [Report R] ->
    drift_severity (drift_analysis R)
      = severity_of (overall_drift_score (drift_analysis R)).
Proof.
  split; [|split; [reflexivity|split; [reflexivity|]]].
  - intros x. unfold severity_of. split; [|split].
    + intros ->. reflexivity.
    + intros Hge Hlt. rewrite (leb_not_ltb _ _ Hge), Hlt. reflexivity.
    + intros Hlow Hmed. rewrite Hlow.
      destruct (x <? 0.5) eqn:Hlt; [|reflexivity].
      exfalso. apply Hmed. split; [|reflexivity].
      apply not_ltb_leb; [|reflexivity|exact Hlow].
      apply (ltb_is_number _ _ Hlt).
  - intros L R H. apply analyze_drift_report, analyze_body_ok in H
      as (reference_df & production_df & _ & _ & _ & _ & _ & _ & _ & Hsev & _).
    exact Hsev.
Qed.

Lemma severity_tiers_witness :
  severity_of 0.1 = "low"%string /\
  severity_of 0.25 = "medium"%string /\
  severity_of 0.75 = "high"%string /\
  severity_of nan = "high"%string /\
  exists R,
    analyze_drift (L := Demo.libs Demo.production) = [Report R] /\
    drift_severity (drift_analysis R) = "medium"%string.
Proof.
  destruct severity_tiers as (Hx & _ & _ & Hrun).
  split; [apply (proj1 (Hx 0.1)); reflexivity|].
  split; [apply (proj1 (proj2 (Hx 0.25))); reflexivity|].
  split; [apply (proj2 (proj2 (Hx 0.75)));
          [reflexivity|intros [_ H]; discriminate H]|].
  split; [apply (proj2 (proj2 (Hx nan)));
          [reflexivity|intros [H _]; discriminate H]|].
  eexists. split; [vm_compute; reflexivity|].
  rewrite (Hrun (Demo.libs Demo.production) _);
    vm_compute; reflexivity.
Defined.

(** C8. The monitoring level of a printed report mirrors its severity:
    "normal" exactly when the severity is "low", "warning" exactly when it
    is "medium", "critical" exactly when it is "high"; both are cut at the
    same 0.2 and 0.5. *)
Theorem level_mirrors_severity {L : Libs} (R : AnalysisResults) :
  analyze_drift = [Report R] ->
  (level (monitoring_status R) = "normal"%string
     <-> drift_severity (drift_analysis R) = "low"%string) /\
  (level (monitoring_status R) = "warning"%string
     <-> drift_severity (drift_analysis R) = "medium"%string) /\
  (level (monitoring_status R) = "critical"%string
     <-> drift_severity (drift_analysis R) = "high"%string) /\
  level (monitoring_status R)
    = level_of (overall_drift_score (drift_analysis R)) /\
  drift_severity (drift_analysis R)
    = severity_of (overall_drift_score (drift_analysis R)).
Proof.
  intros H. apply analyze_drift_report, analyze_body_ok in H
    as (reference_df & production_df & _ & _ & _ & _ & _ & _ & _
        & Hsev & _ & Hlev & _).
  rewrite Hsev, Hlev.
  destruct (severity_of_cases (overall_drift_score (drift_analysis R)))
    as [(C & ->)|[(C & D & ->)|(C & D & ->)]];
  destruct (level_of_cases (overall_drift_score (drift_analysis R)))
    as [(A & ->)|[(A & B & ->)|(A & B & ->)]];
  repeat split; intros; congruence.
Qed.

Lemma level_mirrors_severity_witness :
  exists R,
    analyze_drift (L := Demo.libs Demo.production) = [Report R] /\
    level (monitoring_status R) = "warning"%string /\
    drift_severity (drift_analysis R) = "medium"%string.
Proof.
  eexists. split; [vm_compute; reflexivity|].
  refine ((fun H => conj (proj2 (proj1 (proj2 H)) _) _)
            (level_mirrors_severity (L := Demo.libs Demo.production) _ _));
    vm_compute; reflexivity.
Defined.

End Tiers.

Section Reporter.

Local Open Scope float_scope.

(** C6. A printed report asks for attention exactly when at least one of
    its features is flagged significant or its overall score is strictly
    above 0.3; the count it prints is the number of flagged features. *)
Theorem requires_attention_iff {L : Libs} (R : AnalysisResults) :
  analyze_drift = [Report R] ->
  significant_drifts (drift_analysis R)
    = count_significant (feature_analysis (drift_analysis R)) /\
  (requires_attention (monitoring_status R) = true <->
   (0 < count_significant (feature_analysis (drift_analysis R)))%nat \/
   (0.3 <? overall_drift_score (drift_analysis R)) = true).
Proof.
  intros H. apply analyze_drift_report, analyze_body_ok in H
    as (reference_df & production_df & _ & _ & _ & _ & _ & Hcnt & _
        & _ & _ & _ & Hatt & _).
  split; [exact Hcnt|].
  rewrite Hatt, Hcnt. unfold attention_of, gtb.
  rewrite orb_true_iff, Nat.ltb_lt. reflexivity.
Qed.

Lemma requires_attention_iff_witness :
  exists R,
    analyze_drift (L := Demo.libs Demo.production) = [Report R] /\
    count_significant (feature_analysis (drift_analysis R)) = 1%nat /\
    requires_attention (monitoring_status R) = true.
Proof.
  eexists. split; [vm_compute; reflexivity|].
  split; [vm_compute; reflexivity|].
  refine (proj2 (proj2 (requires_attention_iff
                          (L := Demo.libs Demo.production) _ _)) _).
  - vm_compute; reflexivity.
  - left. vm_compute. apply le_n.
Defined.

(** The three tests of lines 66-72 as they fire. *)
Lemma recommendations_of_unfold (significant : nat) (overall : float) :
  recommendations_of significant overall
    = (if (0 <? significant)%nat
       then [msg_significant significant; msg_retrain] else [])
      ++ (if gtb overall 0.3 then [msg_monitor] else [])
      ++ (if overall <? 0.1 then [msg_stable] else []).
Proof.
  unfold recommendations_of.
  destruct (0 <? significant)%nat, (gtb overall 0.3), (overall <? 0.1);
    reflexivity.
Qed.

(** C7, as the claim states it, fails: the second and third tests cannot
    both succeed, so no count and no score make all three fire. *)
Lemma all_three_never_fire :
  ~ exists (significant : nat) (overall : float),
      recommendations_of significant overall
        = [msg_significant significant; msg_retrain; msg_monitor; msg_stable].
Proof.
  intros (significant & overall & H).
  rewrite recommendations_of_unfold in H.
  destruct (gtb overall 0.3) eqn:E2.
  - rewrite (above_03_not_below_01 overall E2) in H.
    destruct (0 <? significant)%nat; discriminate H.
  - destruct (0 <? significant)%nat, (overall <? 0.1); discriminate H.
Qed.

(** C7, amended. The recommendations are built by three tests in a fixed
    order, each appending to the list when it succeeds: a count above 0
    appends the count-of-features warning and the retraining advice, a
    score above 0.3 appends the monitoring advice, a score below 0.1
    appends the stability note.  The first test is independent of the other
    two; the second and the third exclude each other, so the combinations
    that occur are exactly those in which they do not both fire, and each
    of these six occurs.  A printed report carries the list computed from
    the count and the score it prints. *)
Theorem recommendations_in_order :
  (forall (significant : nat) (overall : float),
      recommendations_of significant overall
        = (if (0 <? significant)%nat
           then [msg_significant significant; msg_retrain] else [])
          ++ (if gtb overall 0.3 then [msg_monitor] else [])
          ++ (if overall <? 0.1 then [msg_stable] else [])) /\
  (forall overall : float,
      gtb overall 0.3 = true -> (overall <? 0.1) = false) /\
  (forall c1 c2 c3 : bool,
      c2 && c3 = false ->
      exists (significant : nat) (overall : float),
        (0 <? significant)%nat = c1 /\
        gtb overall 0.3 = c2 /\
        (overall <? 0.1) = c3) /\
  forall (L : Libs) (R : AnalysisResults),
    analyze_drift = [Report R] ->
    recommendations R
      = recommendations_of (significant_drifts (drift_analysis R))
                           (overall_drift_score (drift_analysis R)).
Proof.
  split; [exact recommendations_of_unfold|].
  split; [exact above_03_not_below_01|].
  split.
  - intros c1 c2 c3 H.
    exists (if c1 then 1%nat else 0%nat),
           (if c2 then 0.4 else if c3 then 0.05 else 0.2).
    destruct c1, c2, c3; try discriminate H; repeat split.
  - intros L R H. apply analyze_drift_report, analyze_body_ok in H
      as (reference_df & production_df & _ & _ & _ & _ & _ & _ & _
          & _ & Hrec & _).
    exact Hrec.
Qed.

Lemma recommendations_in_order_witness :
  (exists R,
      analyze_drift (L := Demo.libs Demo.production) = [Report R] /\
      recommendations R
        = ["🚨 Detected significant drift in 1 feature(s)"%string;
           "Consider retraining the model with recent data"%string]) /\
  (exists (significant : nat) (overall : float),
      (0 <? significant)%nat = true /\
      gtb overall 0.3 = false /\
      (overall <? 0.1) = true).
Proof.
  destruct recommendations_in_order as (_ & _ & Hsub & Hrun).
  split.
  - eexists. split; [vm_compute; reflexivity|].
    rewrite (Hrun (Demo.libs Demo.production) _);
      vm_compute; reflexivity.
  - apply (Hsub true false true). reflexivity.
Defined.

End Reporter.

Section Windowing.

Lemma window_rows (df : DataFrame) :
  rows (window df)
    = skipn (len df - Nat.min (len df) 100) (rows df).
Proof.
  unfold window, len. destruct (Nat.ltb_spec 100 (List.length (rows df))).
  - simpl. rewrite Nat.min_r by lia. reflexivity.
  - rewrite Nat.min_l by lia. rewrite Nat.sub_diag. reflexivity.
Qed.

Lemma window_columns (df : DataFrame) : columns (window df) = columns df.
Proof. unfold window. destruct (100 <? len df); reflexivity. Qed.

Lemma window_len (df : DataFrame) : len (window df) = Nat.min (len df) 100.
Proof.
  unfold len at 1. rewrite window_rows, length_skipn. unfold len. lia.
Qed.

Lemma window_small (df : DataFrame) : len df <= 100 -> window df = df.
Proof.
  intros H. unfold window.
  destruct (Nat.ltb_spec 100 (len df)); [lia|reflexivity].
Qed.

(** A column of the windowed table is the tail of the column of the whole
    table. *)
Lemma getitem_window (df : DataFrame) (name : string) (column : list float) :
  getitem df name = Ok column ->
  getitem (window df) name
    = Ok (skipn (List.length column - Nat.min (List.length column) 100)
                column).
Proof.
  unfold getitem. rewrite window_columns, window_rows.
  destruct (index_of name (columns df)) as [i|]; [|discriminate].
  intros H. injection H as <-.
  rewrite length_map, skipn_map. reflexivity.
Qed.

Lemma getitem_window_ok (df : DataFrame) (name : string)
    (column : list float) :
  getitem (window df) name = Ok column ->
  exists whole, getitem df name = Ok whole.
Proof.
  unfold getitem. rewrite window_columns.
  destruct (index_of name (columns df)) as [i|]; [eauto|discriminate].
Qed.

(** C5. Windowing keeps the last min(n, 100) rows of the production table,
    in input order, and nothing else of it changes: of 250 rows exactly the
    last 100 remain, 50 rows all remain.  The samples scored for a feature
    are the whole reference column and the last min(n, 100) values of the
    production column; the reference table is used as loaded. *)
Theorem window_keeps_last_rows :
  (forall df : DataFrame,
      (exists older, rows df = older ++ rows (window df)) /\
      len (window df) = Nat.min (len df) 100 /\
      rows (window df) = skipn (len df - Nat.min (len df) 100) (rows df) /\
      columns (window df) = columns df) /\
  (forall df : DataFrame,
      len df = 250 ->
      rows (window df) = skipn 150 (rows df) /\ len (window df) = 100) /\
  (forall df : DataFrame, len df <= 100 -> window df = df) /\
  forall (L : Libs) (R : AnalysisResults),
    analyze_drift = [Report R] ->
    exists reference_df production_df,
      read_csv reference_path = Ok reference_df /\
      read_csv production_path = Ok production_df /\
      reference_samples (data_summary R) = len reference_df /\
      forall feature r,
        In (feature, r) (feature_analysis (drift_analysis R)) ->
        exists ref_data prod_whole prod_data,
          getitem reference_df feature = Ok ref_data /\
          List.length ref_data = len reference_df /\
          getitem production_df feature = Ok prod_whole /\
          prod_data
            = skipn (List.length prod_whole
                       - Nat.min (List.length prod_whole) 100) prod_whole /\
          getitem (window production_df) feature = Ok prod_data /\
          ks_2samp ref_data prod_data = Ok (ks_statistic r, p_value r) /\
          reference_mean r = np_mean ref_data /\
          production_mean r = np_mean prod_data /\
          reference_std r = np_std ref_data /\
          production_std r = np_std prod_data.
Proof.
  split; [|split; [|split]].
  - intros df. split; [|split; [|split]].
    + exists (firstn (len df - Nat.min (len df) 100) (rows df)).
      rewrite window_rows. symmetry. apply firstn_skipn.
    + apply window_len.
    + apply window_rows.
    + apply window_columns.
  - intros df H. split.
    + rewrite window_rows, H. reflexivity.
    + rewrite window_len, H. reflexivity.
  - exact window_small.
  - intros L R H. apply analyze_drift_report, analyze_body_ok in H
      as (reference_df & production_df & Href & Hprod & _ & Hall & _ & _
          & _ & _ & _ & _ & _ & Hsum).
    exists reference_df, production_df.
    split; [exact Href|]. split; [exact Hprod|].
    split; [rewrite Hsum; reflexivity|].
    intros feature r Hin. rewrite Forall_forall in Hall.
    destruct (Hall _ Hin)
      as (ref_data & prod_data & H1 & H2 & H3 & _ & _ & _ & M1 & M2 & M3 & M4).
    simpl in *.
    destruct (getitem_window_ok _ _ _ H2) as (whole & Hwhole).
    pose proof (getitem_window _ _ _ Hwhole) as Hw.
    rewrite H2 in Hw. injection Hw as Hw.
    exists ref_data, whole, prod_data. repeat split; try assumption.
    unfold getitem in H1.
    destruct (index_of feature (columns reference_df)); [|discriminate].
    injection H1 as <-. rewrite length_map. reflexivity.
Qed.

Lemma window_keeps_last_rows_witness :
  (rows (window Demo.production_long)
     = skipn 150 (rows Demo.production_long) /\
   len (window Demo.production_long) = 100) /\
  window Demo.production = Demo.production /\
  exists R r,
    analyze_drift (L := Demo.libs Demo.production_long) = [Report R] /\
    In ("sepal_length", r) (feature_analysis (drift_analysis R)) /\
    reference_samples (data_summary R) = 4 /\
    production_mean r = 199.5%float.
Proof.
  destruct window_keeps_last_rows as (_ & Hlong & Hshort & Hrun).
  split; [apply Hlong; reflexivity|].
  split; [apply Hshort; vm_compute; repeat constructor|].
  eexists. eexists. split; [vm_compute; reflexivity|].
  split; [cbn; left; reflexivity|].
  refine ((fun H => _) (Hrun (Demo.libs Demo.production_long) _ _));
    [|vm_compute; reflexivity].
  destruct H as (reference_df & production_df & Href & _ & Hn & _).
  split; [|vm_compute; reflexivity].
  rewrite Hn. vm_compute in Href. injection Href as <-. reflexivity.
Defined.

(** C10. In a printed report [production_samples] is the number of
    production rows after windowing, min(n, 100) for a table of n rows,
    [reference_samples] is the number of rows of the whole reference table
    and [analysis_limit] is 100. *)
Theorem data_summary_counts {L : Libs} (R : AnalysisResults) :
  analyze_drift = [Report R] ->
  exists reference_df production_df,
    read_csv reference_path = Ok reference_df /\
    read_csv production_path = Ok production_df /\
    production_samples (data_summary R) = len (window production_df) /\
    production_samples (data_summary R) = Nat.min (len production_df) 100 /\
    reference_samples (data_summary R) = len reference_df /\
    analysis_limit (data_summary R) = 100.
Proof.
  intros H. apply analyze_drift_report, analyze_body_ok in H
    as (reference_df & production_df & Href & Hprod & _ & _ & _ & _
        & _ & _ & _ & _ & _ & Hsum).
  exists reference_df, production_df. rewrite Hsum. simpl.
  repeat split; try assumption. apply window_len.
Qed.

Lemma data_summary_counts_witness :
  exists R,
    analyze_drift (L := Demo.libs Demo.production_long) = [Report R] /\
    len Demo.production_long = 250 /\
    production_samples (data_summary R) = 100 /\
    reference_samples (data_summary R) = 4 /\
    analysis_limit (data_summary R) = 100.
Proof.
  eexists. split; [vm_compute; reflexivity|].
  split; [reflexivity|].
  refine ((fun H => _)
            (data_summary_counts (L := Demo.libs Demo.production_long) _ _));
    [|vm_compute; reflexivity].
  destruct H as (reference_df & production_df & Href & Hprod
                 & _ & Hp & Hr & Ha).
  vm_compute in Href, Hprod.
  injection Href as <-. injection Hprod as <-.
  rewrite Hp, Hr, Ha. repeat split.
Defined.

End Windowing.

Section Policy.

Local Open Scope float_scope.




End Policy.

Section Failures.

Lemma index_of_none (name : string) (names : list string) :
  ~ In name names -> index_of name names = None.
Proof.
  induction names as [|n names IH]; simpl; intros H; [reflexivity|].
  destruct (String.eqb_spec name n) as [->|_].
  - exfalso. apply H. now left.
  - rewrite IH; [reflexivity|]. intros Hin. apply H. now right.
Qed.

Lemma getitem_missing (df : DataFrame) (name : string) :
  ~ In name (columns df) -> getitem df name = Raise (KeyError name).
Proof. intros H. unfold getitem. now rewrite index_of_none. Qed.

(** A run that printed its report went through every stage. *)
Lemma report_pipeline_succeeds {L : Libs} (R : AnalysisResults) :
  analyze_body = Ok R -> pipeline_succeeds.
Proof.
  intros H. apply analyze_body_ok in H
    as (reference_df & production_df & Href & Hprod & Hkeys & Hall & _).
  exists reference_df, production_df. repeat split; try assumption.
  intros feature Hf. rewrite <- Hkeys in Hf.
  apply entry_of_key in Hf as (r & Hin).
  rewrite Forall_forall in Hall.
  destruct (Hall _ Hin) as (ref_data & prod_data & H1 & H2 & H3 & _).
  exists ref_data, prod_data, (ks_statistic r), (p_value r). auto.
Qed.

(** C4. A run prints exactly one document.  Whenever a stage of the
    pipeline raises (a table cannot be read, a feature column is missing
    from either table, the test cannot be computed on some feature's
    samples) that document is the error document, with the fields
    [error], [details] and [recommendation] and nothing of the analysis;
    in particular so when a feature column such as
    [petal_width] is missing from the reference or the production table.  A printed document with a [drift_analysis] key is the full
    report of a run in which every stage succeeded, with an entry for each
    of the four features. *)
Theorem failure_prints_error_document {L : Libs} :
  (exists d, analyze_drift = [d]) /\
  (pipeline_fails ->
   exists e,
     analyze_drift = [Failure (error_result e)] /\
     top_level_keys (Failure (error_result e))
       = ["error"; "details"; "recommendation"] /\
     error (error_result e) = "Python drift analysis failed" /\
     details (error_result e) = str e) /\
  (forall reference_df production_df feature,
      read_csv reference_path = Ok reference_df ->
      read_csv production_path = Ok production_df ->
      In feature feature_columns ->
      ~ In feature (columns reference_df)
        \/ ~ In feature (columns production_df) ->
      exists e, analyze_drift = [Failure (error_result e)]) /\
  (forall d,
      In d analyze_drift ->
      has_key d "drift_analysis" ->
      pipeline_succeeds /\
      exists R,
        d = Report R /\
        keys (feature_analysis (drift_analysis R)) = feature_columns).
Proof.
  assert (Hfail : pipeline_fails ->
                  exists e, analyze_drift = [Failure (error_result e)]).
  { intros H. apply pipeline_fails_raise in H as (e & He).
    exists e. apply analyze_drift_failure, He. }
  split; [|split; [|split]].
  - unfold analyze_drift. destruct analyze_body; eauto.
  - intros H. destruct (Hfail H) as (e & He). exists e.
    repeat split. exact He.
  - intros reference_df production_df feature Href Hprod Hf Hmissing.
    apply Hfail. right. right.
    exists reference_df, production_df, feature.
    repeat split; try assumption.
    destruct Hmissing as [Hmissing|Hmissing].
    + left. exists (KeyError feature). apply getitem_missing, Hmissing.
    + right. left. exists (KeyError feature).
      apply getitem_missing. now rewrite window_columns.
  - intros d Hin Hkey. unfold analyze_drift in Hin.
    destruct analyze_body as [R|e] eqn:E; destruct Hin as [<-|[]].
    + split; [eapply report_pipeline_succeeds, E|].
      exists R. split; [reflexivity|].
      apply analyze_body_ok in E
        as (reference_df & production_df & _ & _ & Hkeys & _).
      exact Hkeys.
    + exfalso. unfold has_key in Hkey. simpl in Hkey.
      repeat destruct Hkey as [Hkey|Hkey]; discriminate || contradiction.
Qed.

Lemma failure_prints_error_document_witness :
  analyze_drift (L := Demo.libs Demo.production_short)
    = [Failure
         {| error := "Python drift analysis failed";
            details := "'petal_width'";
            recommendation :=
              "Check Python environment and required packages (pandas, numpy, scipy)" |}] /\
  (exists e,
      analyze_drift (L := Demo.libs Demo.production_short)
        = [Failure (error_result e)]) /\
  (exists e,
      analyze_drift (L := Demo.libs Demo.production_empty)
        = [Failure (error_result e)]) /\
  (exists e,
      analyze_drift (L := Model.libs Demo.files_missing)
        = [Failure (error_result e)]).
Proof.
  split; [vm_compute; reflexivity|].
  split; [|split].
  - apply (proj1 (proj2 (proj2
             (@failure_prints_error_document
                (Demo.libs Demo.production_short))))
             Demo.reference Demo.production_short "petal_width");
      try reflexivity.
    + simpl. auto.
    + right. simpl. intros H. repeat destruct H as [H|H];
        discriminate || contradiction.
  - destruct (proj1 (proj2 (@failure_prints_error_document
                              (Demo.libs Demo.production_empty))))
      as (e & He & _); [|exists e; exact He].
    right. right.
    exists Demo.reference, Demo.production_empty, "sepal_length".
    repeat split; [simpl; auto|].
    right. right. eexists. eexists. eexists.
    repeat split; vm_compute; reflexivity.
  - destruct (proj1 (proj2 (@failure_prints_error_document
                              (Model.libs Demo.files_missing))))
      as (e & He & _); [|exists e; exact He].
    right. left. eexists. vm_compute. reflexivity.
Defined.

End Failures.

Section IdenticalSamples.

Local Open Scope Q_scope.

Lemma Qabs_sub_self (q : Q) : Qabs (q - q) == 0.
Proof.
  assert (E : q - q == 0) by ring. rewrite E. reflexivity.
Qed.

Lemma Qmax_zero (a b : Q) : a == 0 -> b == 0 -> Qmax a b == 0.
Proof.
  intros Ha Hb. destruct (Q.max_spec a b) as [[_ E]|[_ E]];
    rewrite E; assumption.
Qed.

Lemma ks_distance_same_on (xs points : list float) :
  fold_right Qmax 0
    (map (fun t => Qabs (Model.ecdf xs t - Model.ecdf xs t)) points) == 0.
Proof.
  induction points as [|t points IH]; cbn [map fold_right];
    [reflexivity|].
  apply Qmax_zero; [apply Qabs_sub_self|exact IH].
Qed.

(** A sample is at distance 0 from itself. *)
Lemma ks_distance_same (xs : list float) : Model.ks_distance xs xs == 0.
Proof. apply ks_distance_same_on. Qed.

Lemma float_of_Q_compat (q q' : Q) :
  q == q' -> Model.float_of_Q q = Model.float_of_Q q'.
Proof.
  intros H. unfold Model.float_of_Q.
  rewrite (Qred_complete _ _ H). reflexivity.
Qed.

Lemma next_counts_length ok j left above :
  List.length (Model.next_counts ok j left above) = List.length above.
Proof.
  revert j left. induction above as [|a above IH]; intros j left; simpl;
    [reflexivity|]. now rewrite IH.
Qed.

Lemma count_rows_length ok todo i above :
  List.length (Model.count_rows ok todo i above) = List.length above.
Proof.
  revert i above. induction todo as [|todo IH]; intros i above; simpl;
    [reflexivity|]. now rewrite IH, next_counts_length.
Qed.

(** The last row computed is the row of the last index. *)
Lemma count_rows_last_row ok todo i above :
  Model.count_rows ok (S todo) i above
    = Model.next_counts (ok (i + todo)%nat) 0 0%Z
        (Model.count_rows ok todo i above).
Proof.
  revert i above. induction todo as [|todo IH]; intros i above.
  - simpl. now rewrite Nat.add_0_r.
  - change (Model.count_rows ok (S (S todo)) i above)
      with (Model.count_rows ok (S todo) (S i)
              (Model.next_counts (ok i) 0 0%Z above)).
    rewrite IH. simpl. now rewrite Nat.add_succ_r.
Qed.

Lemma next_counts_last_blocked ok j left above :
  above <> [] ->
  ok (j + List.length above - 1)%nat = false ->
  last (Model.next_counts ok j left above) 0%Z = 0%Z.
Proof.
  revert j left. induction above as [|a above IH]; intros j left Hne Hok;
    [contradiction|].
  destruct above as [|b above].
  - simpl in *. replace (j + 1 - 1)%nat with j in Hok by lia.
    now rewrite Hok.
  - change (Model.next_counts ok j left (a :: b :: above))
      with ((if ok j then (a + left)%Z else 0%Z)
              :: Model.next_counts ok (S j)
                   (if ok j then (a + left)%Z else 0%Z) (b :: above)).
    assert (Hrest : Model.next_counts ok (S j)
                      (if ok j then (a + left)%Z else 0%Z) (b :: above)
                    <> []).
    { simpl. discriminate. }
    destruct (Model.next_counts ok (S j)
                (if ok j then (a + left)%Z else 0%Z) (b :: above))
      as [|c rest] eqn:E; [contradiction|].
    change (last ((if ok j then (a + left)%Z else 0%Z) :: c :: rest) 0%Z)
      with (last (c :: rest) 0%Z).
    rewrite <- E. apply IH; [discriminate|].
    simpl List.length in *.
    replace (S j + S (List.length above) - 1)%nat
      with (j + S (S (List.length above)) - 1)%nat by lia.
    exact Hok.
Qed.

(** No interleaving is admissible when the whole one is not. *)
Lemma interleavings_blocked ok n m :
  ok n m = false -> Model.interleavings ok n m = 0%Z.
Proof.
  intros H. unfold Model.interleavings.
  rewrite count_rows_last_row. apply next_counts_last_blocked.
  - intros E. apply (f_equal (@List.length Z)) in E.
    rewrite count_rows_length in E. discriminate E.
  - rewrite count_rows_length. simpl List.length.
    rewrite repeat_length.
    replace (0 + S m - 1)%nat with m by lia. exact H.
Qed.

Lemma below_same (n : nat) (d : Q) : d == 0 -> Model.below n n d n n = false.
Proof.
  intros Hd. unfold Model.below, Model.gap.
  assert (E : Qle_bool d
                (Qabs ((Z.of_nat n # Pos.of_nat n)
                         - (Z.of_nat n # Pos.of_nat n))) = true).
  { apply Qle_bool_iff. rewrite Hd, Qabs_sub_self. apply Qle_refl. }
  now rewrite E.
Qed.

(** At distance 0 the p-value is 1. *)
Lemma ks_pvalue_same (n : nat) (d : Q) :
  d == 0 -> Model.ks_pvalue n n d == 1.
Proof.
  intros Hd. unfold Model.ks_pvalue.
  rewrite (interleavings_blocked _ _ _ (below_same n d Hd)).
  unfold Qdiv. change (inject_Z 0) with 0. ring.
Qed.

(** The test on a non-empty sample and itself. *)
Lemma model_ks_2samp_same (xs : list float) :
  xs <> [] -> Model.ks_2samp xs xs = Ok (0%float, 1%float).
Proof.
  intros Hne. unfold Model.ks_2samp.
  destruct xs as [|x xs]; [contradiction|].
  rewrite (float_of_Q_compat _ 0 (ks_distance_same (x :: xs))).
  rewrite (float_of_Q_compat _ 1
             (ks_pvalue_same _ _ (ks_distance_same (x :: xs)))).
  reflexivity.
Qed.

Local Close Scope Q_scope.
Local Open Scope float_scope.

(** C9. When the reference values and the windowed production values of a
    feature are the same sequence, the feature's entry in the printed
    report has KS statistic 0, drift score 0, drift-detected flag false and
    p-value 1.  The test is the two-sample KS test as the specification
    describes it: on a non-empty sample and itself it returns statistic 0
    and p-value 1. *)
Theorem identical_samples_no_drift :
  (forall xs : list float,
      xs <> [] -> Model.ks_2samp xs xs = Ok (0, 1)) /\
  forall (L : Libs) (R : AnalysisResults)
         (reference_df production_df : DataFrame)
         (feature : string) (r : FeatureDriftResult) (xs : list float),
    (forall a b, ks_2samp a b = Model.ks_2samp a b) ->
    analyze_drift = [Report R] ->
    read_csv reference_path = Ok reference_df ->
    read_csv production_path = Ok production_df ->
    getitem reference_df feature = Ok xs ->
    getitem (window production_df) feature = Ok xs ->
    In (feature, r) (feature_analysis (drift_analysis R)) ->
    ks_statistic r = 0 /\
    drift_score r = 0 /\
    drift_detected r = false /\
    p_value r = 1.
Proof.
  split; [exact model_ks_2samp_same|].
  intros L R reference_df production_df feature r xs Hks H Href Hprod
         Hx Hy Hin.
  apply analyze_drift_report, analyze_body_ok in H
    as (rdf & pdf & Href' & Hprod' & _ & Hall & _).
  assert (rdf = reference_df) by congruence.
  assert (pdf = production_df) by congruence. subst rdf pdf.
  rewrite Forall_forall in Hall.
  destruct (Hall _ Hin)
    as (ref_data & prod_data & H1 & H2 & H3 & H4 & _ & H6 & _).
  simpl in H1, H2, H3, H4, H6.
  assert (ref_data = xs) by congruence.
  assert (prod_data = xs) by congruence. subst ref_data prod_data.
  rewrite Hks in H3.
  assert (Hne : xs <> []).
  { intros ->. discriminate H3. }
  rewrite (model_ks_2samp_same xs Hne) in H3.
  injection H3 as Hstat Hp.
  rewrite H4, H6, <- Hstat, <- Hp. repeat split.
Qed.

Lemma identical_samples_no_drift_witness :
  exists R r,
    analyze_drift (L := Demo.libs Demo.production) = [Report R] /\
    In ("sepal_width", r) (feature_analysis (drift_analysis R)) /\
    getitem Demo.reference "sepal_width"
      = getitem (window Demo.production) "sepal_width" /\
    ks_statistic r = 0 /\
    drift_score r = 0 /\
    drift_detected r = false /\
    p_value r = 1.
Proof.
  eexists. eexists. split; [vm_compute; reflexivity|].
  split; [cbn; right; left; reflexivity|].
  split; [vm_compute; reflexivity|].
  refine (proj2 identical_samples_no_drift (Demo.libs Demo.production)
            _ Demo.reference Demo.production "sepal_width" _
            [3.5; 3.0; 2.9; 3.0] _ _ _ _ _ _ _).
  - intros a b. reflexivity.
  - vm_compute; reflexivity.
  - reflexivity.
  - reflexivity.
  - vm_compute; reflexivity.
  - vm_compute; reflexivity.
  - cbn; right; left; reflexivity.
Defined.

End IdenticalSamples.

(** * Two runs end to end *)

Section Runs.

(** Production equal to the reference: nothing drifts, the only
    recommendation is the stability note. *)
Example stable_run :
  exists R,
    analyze_drift (L := Demo.libs Demo.reference) = [Report R] /\
    overall_drift_score (drift_analysis R) = 0%float /\
    drift_severity (drift_analysis R) = "low" /\
    significant_drifts (drift_analysis R) = 0 /\
    recommendations R = [msg_stable] /\
    level (monitoring_status R) = "normal" /\
    requires_attention (monitoring_status R) = false.
Proof.
  eexists. split; [vm_compute; reflexivity|].
  repeat split.
Qed.

(** One feature shifted by a constant: it is flagged, retraining is
    advised and the run asks for attention. *)
Example shifted_run :
  exists R,
    analyze_drift (L := Demo.libs Demo.production) = [Report R] /\
    significant_drifts (drift_analysis R) = 1 /\
    recommendations R = [msg_significant 1; msg_retrain] /\
    requires_attention (monitoring_status R) = true.
Proof.
  eexists. split; [vm_compute; reflexivity|].
  repeat split.
Qed.

End Runs.

(** * Further properties of the run *)

Section Outcome.

Context {L : Libs}.

Lemma succeeds_not_fails : pipeline_succeeds -> pipeline_fails -> False.
Proof.
  intros (reference_df & production_df & Href & Hprod & Hall) Hfail.
  destruct Hfail as [[e He]|[[e He]|(rdf & pdf & f & H1 & H2 & Hf & Hfail)]];
    try congruence.
  assert (rdf = reference_df) by congruence.
  assert (pdf = production_df) by congruence. subst.
  destruct (Hall f Hf) as (ref_data & prod_data & s & p & G1 & G2 & G3).
  destruct Hfail as [[e He]|[[e He]|(rd & pd & e & F1 & F2 & F3)]];
    congruence.
Qed.

(** X1. A run prints the full report exactly when both tables load and,
    for each of the four features, both columns exist and the test
    returns; it prints the error document exactly when one of these stages
    raises. *)
Theorem run_outcome :
  ((exists R, analyze_drift = [Report R]) <-> pipeline_succeeds) /\
  ((exists e, analyze_drift = [Failure (error_result e)])
     <-> pipeline_fails).
Proof.
  split; split.
  - intros (R & H). apply analyze_drift_report in H.
    eapply report_pipeline_succeeds, H.
  - intros Hok. destruct analyze_body as [R|e] eqn:E.
    + exists R. apply analyze_drift_report, E.
    + exfalso. apply analyze_body_raise in E.
      exact (succeeds_not_fails Hok E).
  - intros (e & H). unfold analyze_drift in H.
    destruct analyze_body as [R|e'] eqn:E; [discriminate H|].
    eapply analyze_body_raise, E.
  - intros Hfail. apply pipeline_fails_raise in Hfail as (e & He).
    exists e. apply analyze_drift_failure, He.
Qed.

Lemma for_each_app {S A : Type} (body : S -> A -> result S)
    (xs ys : list A) (st : S) :
  for_each body (xs ++ ys) st
    = bind (for_each body xs st) (for_each body ys).
Proof.
  revert st. induction xs as [|x xs IH]; intros st; simpl; [reflexivity|].
  destruct (body st x) as [st'|e]; simpl; [apply IH|reflexivity].
Qed.

Lemma first_error_none_iff (reference_df production_df : DataFrame)
    (feature : string) :
  first_error reference_df production_df feature = None <->
  exists ref_data prod_data statistic p,
    getitem reference_df feature = Ok ref_data /\
    getitem production_df feature = Ok prod_data /\
    ks_2samp ref_data prod_data = Ok (statistic, p).
Proof.
  unfold first_error. split.
  - destruct (getitem reference_df feature) as [rd|]; [|discriminate].
    destruct (getitem production_df feature) as [pd|]; [|discriminate].
    destruct (ks_2samp rd pd) as [[s p]|] eqn:E; [|discriminate].
    intros _. exists rd, pd, s, p. auto.
  - intros (rd & pd & s & p & -> & -> & ->). reflexivity.
Qed.

(** An iteration raises what [first_error] says and returns otherwise. *)
Lemma loop_body_first_error (reference_df production_df : DataFrame)
    (st : loop_state) (feature : string) :
  match first_error reference_df production_df feature with
  | Some e => loop_body reference_df production_df st feature = Raise e
  | None =>
      exists st', loop_body reference_df production_df st feature = Ok st'
  end.
Proof.
  unfold first_error, loop_body.
  destruct (getitem reference_df feature) as [rd|e1]; [|reflexivity].
  destruct (getitem production_df feature) as [pd|e2]; [|reflexivity].
  cbn [bind].
  destruct (ks_2samp rd pd) as [[s p]|e3]; [|reflexivity].
  cbn [bind]. eauto.
Qed.

Lemma for_each_no_error (reference_df production_df : DataFrame)
    (features : list string) :
  (forall f, In f features ->
             first_error reference_df production_df f = None) ->
  forall st, exists st',
    for_each (loop_body reference_df production_df) features st = Ok st'.
Proof.
  induction features as [|f features IH]; intros Hall st; simpl; [eauto|].
  pose proof (loop_body_first_error reference_df production_df st f) as Hb.
  rewrite (Hall f (or_introl eq_refl)) in Hb. destruct Hb as (st1 & ->).
  cbn [bind]. apply IH. intros g Hg. apply Hall. now right.
Qed.

(** X2. The error document reports the first exception in the order the
    code runs: the reference table's read, then the production table's
    read, then, feature by feature in the configured order, the
    reference column, the production column and the test.  In particular
    a column missing from both tables is reported for the first such
    feature, as the [KeyError] of the reference lookup. *)
Theorem first_failure_is_reported :
  (forall e,
      read_csv reference_path = Raise e ->
      analyze_drift = [Failure (error_result e)]) /\
  (forall reference_df e,
      read_csv reference_path = Ok reference_df ->
      read_csv production_path = Raise e ->
      analyze_drift = [Failure (error_result e)]) /\
  (forall reference_df production_df before feature after e,
      read_csv reference_path = Ok reference_df ->
      read_csv production_path = Ok production_df ->
      feature_columns = before ++ feature :: after ->
      (forall f, In f before ->
                 first_error reference_df (window production_df) f = None) ->
      first_error reference_df (window production_df) feature = Some e ->
      analyze_drift = [Failure (error_result e)] /\
      details (error_result e) = str e) /\
  (forall reference_df production_df feature,
      ~ In feature (columns reference_df) ->
      first_error reference_df production_df feature
        = Some (KeyError feature)).
Proof.
  split; [|split; [|split]].
  - intros e H. apply analyze_drift_failure. unfold analyze_body.
    rewrite H. reflexivity.
  - intros reference_df e Href H. apply analyze_drift_failure.
    unfold analyze_body. rewrite Href, H. reflexivity.
  - intros reference_df production_df before feature after e
           Href Hprod Hsplit Hbefore Hfeat.
    split; [|reflexivity].
    apply analyze_drift_failure. unfold analyze_body.
    rewrite Href, Hprod. cbn [bind]. cbv zeta.
    rewrite Hsplit, for_each_app.
    destruct (for_each_no_error reference_df (window production_df)
                before Hbefore initial_state) as (st1 & ->).
    cbn [bind for_each].
    pose proof (loop_body_first_error reference_df
                  (window production_df) st1 feature) as Hb.
    rewrite Hfeat in Hb. rewrite Hb. reflexivity.
  - intros reference_df production_df feature Hmissing.
    unfold first_error. now rewrite getitem_missing.
Qed.

End Outcome.

Lemma first_failure_is_reported_witness :
  analyze_drift (L := Model.libs Edge.files_short)
    = [Failure (error_result (KeyError "sepal_width"))] /\
  details (error_result (KeyError "sepal_width")) = "'sepal_width'".
Proof.
  refine (proj1 (proj2 (proj2
            (@first_failure_is_reported (Model.libs Edge.files_short))))
            Edge.reference_short Demo.production_short
            ["sepal_length"] "sepal_width" ["petal_length"; "petal_width"]
            (KeyError "sepal_width") _ _ _ _ _).
  - reflexivity.
  - reflexivity.
  - reflexivity.
  - intros f [<-|[]]. vm_compute. reflexivity.
  - vm_compute. reflexivity.
Defined.

Section WindowEdges.

Lemma DataFrame_eq (a b : DataFrame) :
  columns a = columns b -> rows a = rows b -> a = b.
Proof. destruct a, b. simpl. intros -> ->. reflexivity. Qed.

Lemma window_idempotent (df : DataFrame) : window (window df) = window df.
Proof. apply window_small. rewrite window_len. lia. Qed.

(** X3. The window leaves a table untouched exactly when it has at most
    100 rows: 100 rows stay as they are, and of 101 rows exactly the oldest
    is dropped.  Windowing a windowed table changes nothing. *)
Theorem window_boundary :
  (forall df : DataFrame, window df = df <-> len df <= 100) /\
  (forall (df : DataFrame) (oldest : list float) (rest : list (list float)),
      rows df = oldest :: rest ->
      List.length rest = 100 ->
      rows (window df) = rest) /\
  (forall df : DataFrame, window (window df) = window df).
Proof.
  split; [|split].
  - intros df. split; [|apply window_small].
    intros H. apply (f_equal len) in H. rewrite window_len in H. lia.
  - intros df oldest rest Hrows Hlen. rewrite window_rows.
    unfold len. rewrite Hrows. simpl List.length. rewrite Hlen.
    reflexivity.
  - exact window_idempotent.
Qed.

Lemma window_boundary_witness :
  rows (window Edge.production_101) = List.tl (rows Edge.production_101) /\
  len (window Edge.production_101) = 100.
Proof.
  assert (H : rows (window Edge.production_101)
              = List.tl (rows Edge.production_101)).
  { refine (proj1 (proj2 window_boundary) Edge.production_101
              [0; 3.0; 1.4; 0.2]%float _ _ _); reflexivity. }
  split; [exact H|]. unfold len. rewrite H. reflexivity.
Defined.

Lemma window_of_recent (df : DataFrame) (older recent : list (list float)) :
  rows df = older ++ recent ->
  100 <= List.length recent ->
  rows (window df) = skipn (List.length recent - 100) recent.
Proof.
  intros Hrows Hlen. rewrite window_rows. unfold len. rewrite Hrows.
  rewrite length_app, Nat.min_r by lia.
  rewrite skipn_app, skipn_all2 by lia. simpl. f_equal. lia.
Qed.

(** X4. Production rows older than the last 100 never influence what is
    printed: two production tables with the same columns that end with the
    same rows, at least 100 of them, give the same output, report or error
    document alike. *)
Theorem older_rows_are_ignored
    (files1 files2 : string -> result DataFrame)
    (ks : list float -> list float -> result (float * float))
    (mean std : list float -> float)
    (production1 production2 : DataFrame)
    (older1 older2 recent : list (list float)) :
  files1 reference_path = files2 reference_path ->
  files1 production_path = Ok production1 ->
  files2 production_path = Ok production2 ->
  columns production1 = columns production2 ->
  rows production1 = older1 ++ recent ->
  rows production2 = older2 ++ recent ->
  100 <= List.length recent ->
  analyze_drift (L := Build_Libs files1 ks mean std)
    = analyze_drift (L := Build_Libs files2 ks mean std).
Proof.
  intros Href H1 H2 Hcols Hrows1 Hrows2 Hlen.
  assert (Hw : window production1 = window production2).
  { apply DataFrame_eq.
    - now rewrite !window_columns.
    - rewrite (window_of_recent _ _ _ Hrows1 Hlen).
      now rewrite (window_of_recent _ _ _ Hrows2 Hlen). }
  unfold analyze_drift, analyze_body. cbn [read_csv].
  rewrite Href, H1, H2. cbn [bind]. cbv zeta. rewrite Hw. reflexivity.
Qed.

Lemma older_rows_are_ignored_witness :
  analyze_drift (L := Demo.libs Demo.production_long)
    = analyze_drift (L := Demo.libs Edge.production_recent).
Proof.
  refine (older_rows_are_ignored
            (Demo.files Demo.production_long)
            (Demo.files Edge.production_recent)
            Model.ks_2samp Model.mean Model.std
            Demo.production_long Edge.production_recent
            (firstn 150 (rows Demo.production_long)) []
            (rows Edge.production_recent) _ _ _ _ _ _ _);
    reflexivity.
Defined.

End WindowEdges.

Section Consistency.

Local Open Scope float_scope.

Lemma SFltb_leb_trans (x y z : spec_float) :
  SFltb x y = true -> SFleb y z = true -> SFltb x z = true.
Proof.
  unfold SFltb, SFleb.
  destruct x as [sx|sx| |sx mx ex], y as [sy|sy| |sy my ey],
           z as [sz|sz| |sz mz ez]; simpl;
    try destruct sx; try destruct sy; try destruct sz; simpl;
    try congruence;
    change (PosDef.Pos.compare_cont Eq) with Pos.compare;
    destruct (Z.compare_spec ex ey), (Z.compare_spec ey ez),
             (Z.compare_spec ex ez); simpl; try congruence; try lia;
    subst;
    destruct (Pos.compare_spec mx my), (Pos.compare_spec my mz),
             (Pos.compare_spec mx mz); simpl; try congruence; try lia.
Qed.

Lemma ltb_leb_trans (x y z : float) :
  (x <? y) = true -> (y <=? z) = true -> (x <? z) = true.
Proof.
  rewrite !FloatAxioms.ltb_spec, FloatAxioms.leb_spec.
  apply SFltb_leb_trans.
Qed.

Lemma ltb_asym (x y : float) : (x <? y) = true -> (y <? x) = false.
Proof.
  intros H. destruct (y <? x) eqn:E; [|reflexivity].
  pose proof (ltb_trans _ _ _ H E) as T.
  rewrite FloatAxioms.ltb_spec in T. unfold SFltb in T.
  destruct (ltb_is_number _ _ H) as [Hx _].
  apply is_number_spec in Hx. rewrite (SFcompare_refl _ Hx) in T.
  discriminate T.
Qed.

Lemma msg_significant_other (n : nat) :
  msg_significant n <> msg_retrain /\
  msg_significant n <> msg_monitor /\
  msg_significant n <> msg_stable.
Proof.
  unfold msg_significant, msg_retrain, msg_monitor, msg_stable.
  repeat split; simpl; discriminate.
Qed.

Lemma in_recommendations (significant : nat) (overall : float) :
  (In msg_retrain (recommendations_of significant overall)
     <-> (0 <? significant)%nat = true) /\
  (In msg_monitor (recommendations_of significant overall)
     <-> gtb overall 0.3 = true) /\
  (In msg_stable (recommendations_of significant overall)
     <-> (overall <? 0.1) = true).
Proof.
  rewrite recommendations_of_unfold.
  destruct (msg_significant_other significant) as (N1 & N2 & N3).
  destruct (0 <? significant)%nat, (gtb overall 0.3), (overall <? 0.1);
    cbn [app In]; repeat split; intros H; auto;
    repeat destruct H as [H|H];
    try discriminate H; try contradiction; congruence.
Qed.

(** X5. The attention flag and the recommendations never disagree: a
    printed report asks for attention exactly when its recommendations
    contain the retraining advice or the monitoring advice. *)
Theorem attention_matches_recommendations {L : Libs} (R : AnalysisResults) :
  analyze_drift = [Report R] ->
  (requires_attention (monitoring_status R) = true <->
   In msg_retrain (recommendations R) \/ In msg_monitor (recommendations R)).
Proof.
  intros H. apply analyze_drift_report, analyze_body_ok in H
    as (reference_df & production_df & _ & _ & _ & _ & _ & _ & _
        & _ & Hrec & _ & Hatt & _).
  rewrite Hatt, Hrec.
  destruct (in_recommendations (significant_drifts (drift_analysis R))
              (overall_drift_score (drift_analysis R))) as (I1 & I2 & _).
  rewrite I1, I2. unfold attention_of. apply orb_true_iff.
Qed.

Lemma attention_matches_recommendations_witness :
  exists R,
    analyze_drift (L := Demo.libs Demo.production) = [Report R] /\
    requires_attention (monitoring_status R) = true /\
    In msg_retrain (recommendations R).
Proof.
  eexists. split; [vm_compute; reflexivity|].
  split; [|cbn; right; left; reflexivity].
  refine (proj2 (attention_matches_recommendations
                   (L := Demo.libs Demo.production) _ _) _).
  - vm_compute; reflexivity.
  - left. cbn. right. left. reflexivity.
Defined.

(** X6. The recommendations and the severity tier of a printed report
    agree.  The stability note appears only with severity "low" and level
    "normal"; the monitoring advice never appears with severity "low"; and
    when the severity is "high" and the overall score is a number (not
    NaN), the report asks for attention and carries the monitoring
    advice. *)
Theorem recommendations_agree_with_severity {L : Libs} (R : AnalysisResults) :
  analyze_drift = [Report R] ->
  (In msg_stable (recommendations R) ->
   drift_severity (drift_analysis R) = "low"%string /\
   level (monitoring_status R) = "normal"%string) /\
  (In msg_monitor (recommendations R) ->
   drift_severity (drift_analysis R) <> "low"%string /\
   level (monitoring_status R) <> "normal"%string) /\
  (drift_severity (drift_analysis R) = "high"%string ->
   is_number (overall_drift_score (drift_analysis R)) ->
   requires_attention (monitoring_status R) = true /\
   In msg_monitor (recommendations R)).
Proof.
  intros H. apply analyze_drift_report, analyze_body_ok in H
    as (reference_df & production_df & _ & _ & _ & _ & _ & _ & _
        & Hsev & Hrec & Hlev & Hatt & _).
  rewrite Hsev, Hrec, Hlev, Hatt.
  set (x := overall_drift_score (drift_analysis R)).
  set (n := significant_drifts (drift_analysis R)).
  destruct (in_recommendations n x) as (_ & I2 & I3).
  rewrite I2, I3. unfold gtb, attention_of, gtb.
  split; [|split].
  - intros Hst. assert (Hlow : (x <? 0.2) = true).
    { apply (ltb_trans _ 0.1); [exact Hst|reflexivity]. }
    unfold severity_of, level_of. rewrite Hlow. split; reflexivity.
  - intros Hmon. assert (Hlow : (x <? 0.2) = false).
    { destruct (x <? 0.2) eqn:E; [|reflexivity].
      pose proof (ltb_trans _ _ _ Hmon E) as T. vm_compute in T.
      discriminate T. }
    unfold severity_of, level_of. rewrite Hlow.
    split; destruct (x <? 0.5); discriminate.
  - intros Hhigh Hnum. assert (Hmon : (0.3 <? x) = true).
    { unfold severity_of in Hhigh.
      destruct (x <? 0.2); [discriminate Hhigh|].
      destruct (x <? 0.5) eqn:E; [discriminate Hhigh|].
      apply (ltb_leb_trans _ 0.5); [reflexivity|].
      apply not_ltb_leb; [exact Hnum|reflexivity|exact E]. }
    rewrite Hmon. split; [apply orb_true_r|reflexivity].
Qed.

Lemma recommendations_agree_with_severity_witness :
  (exists R,
      analyze_drift (L := Demo.libs Demo.reference) = [Report R] /\
      In msg_stable (recommendations R) /\
      drift_severity (drift_analysis R) = "low"%string) /\
  (exists R,
      analyze_drift (L := Demo.libs Demo.production_long) = [Report R] /\
      drift_severity (drift_analysis R) = "high"%string /\
      requires_attention (monitoring_status R) = true).
Proof.
  split.
  - eexists. split; [vm_compute; reflexivity|].
    split; [cbn; left; reflexivity|].
    refine (proj1 (proj1 (recommendations_agree_with_severity
                            (L := Demo.libs Demo.reference) _ _) _)).
    + vm_compute; reflexivity.
    + cbn. left. reflexivity.
  - eexists. split; [vm_compute; reflexivity|].
    split; [vm_compute; reflexivity|].
    refine (proj1 (proj2 (proj2 (recommendations_agree_with_severity
                            (L := Demo.libs Demo.production_long) _ _))
                     _ _)).
    + vm_compute; reflexivity.
    + vm_compute; reflexivity.
    + vm_compute; reflexivity.
Defined.

End Consistency.

Section NotANumber.

Local Open Scope float_scope.

Lemma nan_of_spec (x : float) : Prim2SF x = S754_nan -> x = nan.
Proof.
  intros H. rewrite <- (SF2Prim_Prim2SF x), H. reflexivity.
Qed.

Lemma add_nan_r (x : float) : x + nan = nan.
Proof.
  apply nan_of_spec. rewrite FloatAxioms.add_spec.
  replace (Prim2SF nan) with S754_nan by reflexivity.
  destruct (Prim2SF x) as [[|]|[|]| |s m e]; reflexivity.
Qed.

Lemma add_nan_l (x : float) : nan + x = nan.
Proof.
  apply nan_of_spec. rewrite FloatAxioms.add_spec.
  replace (Prim2SF nan) with S754_nan by reflexivity. reflexivity.
Qed.

Lemma div_nan_l (x : float) : nan / x = nan.
Proof.
  apply nan_of_spec. rewrite FloatAxioms.div_spec.
  replace (Prim2SF nan) with S754_nan by reflexivity. reflexivity.
Qed.

Lemma sum_scores_nan (fa : dict FeatureDriftResult) :
  sum_scores fa nan = nan.
Proof.
  induction fa as [|entry fa IH]; [reflexivity|].
  unfold sum_scores in *. cbn [fold_left]. rewrite add_nan_l. exact IH.
Qed.

Lemma sum_scores_with_nan (fa : dict FeatureDriftResult)
    (entry : string * FeatureDriftResult) :
  In entry fa -> drift_score (snd entry) = nan ->
  forall start, sum_scores fa start = nan.
Proof.
  intros Hin Hnan. induction fa as [|e fa IH]; [contradiction|].
  intros start. unfold sum_scores in *. cbn [fold_left].
  destruct Hin as [->|Hin].
  - rewrite Hnan, add_nan_r. apply sum_scores_nan.
  - apply IH, Hin.
Qed.

(** X7. A NaN statistic is not filtered anywhere.  When the test returns
    NaN as the statistic of some feature, that feature's drift score is
    NaN and its drift-detected flag is false; the overall score is NaN,
    so the severity is "high" and the level "critical", neither the
    monitoring advice nor the stability note is given, and the report asks
    for attention only if some feature is significant. *)
Theorem nan_statistic_propagates {L : Libs} (R : AnalysisResults)
    (feature : string) (r : FeatureDriftResult) :
  analyze_drift = [Report R] ->
  In (feature, r) (feature_analysis (drift_analysis R)) ->
  ks_statistic r = nan ->
  drift_score r = nan /\
  drift_detected r = false /\
  overall_drift_score (drift_analysis R) = nan /\
  drift_severity (drift_analysis R) = "high"%string /\
  level (monitoring_status R) = "critical"%string /\
  ~ In msg_monitor (recommendations R) /\
  ~ In msg_stable (recommendations R) /\
  requires_attention (monitoring_status R)
    = (0 <? significant_drifts (drift_analysis R))%nat.
Proof.
  intros H Hin Hnan. apply analyze_drift_report, analyze_body_ok in H
    as (reference_df & production_df & _ & _ & _ & Hall & Hmean & _ & _
        & Hsev & Hrec & Hlev & Hatt & _).
  rewrite Forall_forall in Hall.
  destruct (Hall _ Hin) as (rd & pd & _ & _ & _ & Hscore & _ & Hdet & _).
  simpl in Hscore, Hdet. rewrite Hnan in Hscore, Hdet.
  assert (Hs : drift_score r = nan) by (rewrite Hscore; reflexivity).
  assert (Ho : overall_drift_score (drift_analysis R) = nan).
  { rewrite Hmean.
    rewrite (sum_scores_with_nan _ (feature, r) Hin Hs). apply div_nan_l. }
  rewrite Hsev, Hlev, Hatt, Hrec, Ho.
  destruct (in_recommendations (significant_drifts (drift_analysis R)) nan)
    as (_ & I2 & I3).
  rewrite I2, I3.
  repeat split; try assumption; try discriminate.
  unfold attention_of. apply orb_false_r.
Qed.

End NotANumber.

Lemma nan_statistic_propagates_witness :
  exists R r,
    analyze_drift (L := Edge.libs_nan) = [Report R] /\
    In ("sepal_length", r) (feature_analysis (drift_analysis R)) /\
    ks_statistic r = nan /\
    drift_severity (drift_analysis R) = "high" /\
    requires_attention (monitoring_status R) = true /\
    significant_drifts (drift_analysis R) = 1.
Proof.
  eexists. eexists. split; [vm_compute; reflexivity|].
  split; [cbn; left; reflexivity|].
  split; [reflexivity|].
  refine ((fun H => _)
            (nan_statistic_propagates (L := Edge.libs_nan)
               _ "sepal_length" _ _ _ _)).
  - destruct H as (_ & _ & _ & Hsev & _ & _ & _ & Hatt).
    split; [exact Hsev|]. split; [rewrite Hatt|]; reflexivity.
  - vm_compute; reflexivity.
  - cbn; left; reflexivity.
  - reflexivity.
Defined.

Section Saturation.

Local Open Scope float_scope.

Lemma SFeqb_one (f : spec_float) :
  SFcompare (Prim2SF 1) f = Some Eq -> f = Prim2SF 1.
Proof.
  replace (Prim2SF 1) with (S754_finite false 4503599627370496 (-52))
    by reflexivity.
  destruct f as [s|s| |s m e]; cbn [SFcompare]; try discriminate;
    try (destruct s; discriminate).
  destruct s; [discriminate|].
  change (PosDef.Pos.compare_cont Eq) with Pos.compare.
  destruct (Z.compare_spec (-52) e) as [He|He|He]; try discriminate.
  destruct (Pos.compare_spec 4503599627370496 m) as [Hm|Hm|Hm];
    try discriminate.
  intros _. subst. reflexivity.
Qed.

(** Twice the statistic, capped: below 1 it is kept, from 1 on the result
    is exactly 1.0. *)
Lemma py_min_saturates (x : float) :
  ((x <? 1) = true -> py_min x 1 = x) /\
  ((1 <=? x) = true -> py_min x 1 = 1).
Proof.
  unfold py_min. split.
  - intros H. now rewrite (ltb_asym _ _ H).
  - intros H. destruct (1 <? x) eqn:E; [reflexivity|].
    apply Prim2SF_inj, SFeqb_one.
    rewrite FloatAxioms.leb_spec in H. rewrite FloatAxioms.ltb_spec in E.
    unfold SFleb in H. unfold SFltb in E.
    destruct (SFcompare (Prim2SF 1) (Prim2SF x)) as [[| |]|];
      congruence.
Qed.

(** X8. The drift score saturates: for every entry of a printed report it
    is exactly twice the statistic while that product is below 1, and
    exactly 1.0 as soon as the product reaches 1 (in particular for every
    statistic from 0.5 up to 1). *)
Theorem drift_score_saturates {L : Libs} (R : AnalysisResults)
    (feature : string) (r : FeatureDriftResult) :
  analyze_drift = [Report R] ->
  In (feature, r) (feature_analysis (drift_analysis R)) ->
  ((ks_statistic r * 2 <? 1) = true ->
   drift_score r = ks_statistic r * 2) /\
  ((1 <=? ks_statistic r * 2) = true -> drift_score r = 1).
Proof.
  intros H Hin. apply analyze_drift_report, analyze_body_ok in H
    as (reference_df & production_df & _ & _ & _ & Hall & _).
  rewrite Forall_forall in Hall.
  destruct (Hall _ Hin) as (rd & pd & _ & _ & _ & Hscore & _).
  simpl in Hscore. rewrite Hscore. apply py_min_saturates.
Qed.

Lemma drift_score_saturates_witness :
  exists R r,
    analyze_drift (L := Demo.libs Demo.production_long) = [Report R] /\
    In ("petal_length", r) (feature_analysis (drift_analysis R)) /\
    ks_statistic r = 0.5 /\
    drift_score r = 1.
Proof.
  eexists. eexists. split; [vm_compute; reflexivity|].
  split; [cbn; right; right; left; reflexivity|].
  split; [reflexivity|].
  refine (proj2 (drift_score_saturates (L := Demo.libs Demo.production_long)
                   _ "petal_length" _ _ _) _).
  - vm_compute; reflexivity.
  - cbn; right; right; left; reflexivity.
  - reflexivity.
Defined.

End Saturation.

Section Counts.

Lemma getitem_length (df : DataFrame) (name : string) (column : list float) :
  getitem df name = Ok column -> List.length column = len df.
Proof.
  unfold getitem. destruct (index_of name (columns df)); [|discriminate].
  intros H. injection H as <-. apply length_map.
Qed.

(** X9. In a printed report [total_features] is 4 and is the number of
    entries of [feature_analysis], whose keys are pairwise distinct;
    [significant_drifts] never exceeds it, and is 0 exactly when no entry
    is flagged significant. *)
Theorem significant_count_bounds {L : Libs} (R : AnalysisResults) :
  analyze_drift = [Report R] ->
  total_features (drift_analysis R) = 4 /\
  List.length (feature_analysis (drift_analysis R))
    = total_features (drift_analysis R) /\
  NoDup (keys (feature_analysis (drift_analysis R))) /\
  significant_drifts (drift_analysis R) <= total_features (drift_analysis R) /\
  (significant_drifts (drift_analysis R) = 0 <->
   forall feature r,
     In (feature, r) (feature_analysis (drift_analysis R)) ->
     is_significant r = false).
Proof.
  intros H. apply analyze_drift_report, analyze_body_ok in H
    as (reference_df & production_df & _ & _ & Hkeys & _ & _ & Hcnt & Htot
        & _).
  assert (Hlen : List.length (feature_analysis (drift_analysis R)) = 4).
  { apply (f_equal (@List.length string)) in Hkeys.
    unfold keys in Hkeys. rewrite length_map in Hkeys. exact Hkeys. }
  change (List.length feature_columns) with 4 in Htot.
  rewrite Htot, Hcnt, Hlen, Hkeys.
  split; [reflexivity|]. split; [reflexivity|].
  split; [apply feature_columns_nodup|].
  unfold count_significant. split.
  - rewrite <- Hlen. apply filter_length_le.
  - rewrite length_zero_iff_nil. split.
    + intros Hnil feature r Hin.
      destruct (is_significant r) eqn:E; [|reflexivity].
      assert (Hf : In (feature, r)
                     (filter (fun entry => is_significant (snd entry))
                        (feature_analysis (drift_analysis R)))).
      { apply filter_In. split; [exact Hin|exact E]. }
      rewrite Hnil in Hf. contradiction.
    + intros Hall.
      destruct (filter (fun entry => is_significant (snd entry))
                  (feature_analysis (drift_analysis R)))
        as [|[f r] rest] eqn:E; [reflexivity|].
      assert (Hf : In (f, r)
                     (filter (fun entry => is_significant (snd entry))
                        (feature_analysis (drift_analysis R)))).
      { rewrite E. now left. }
      apply filter_In in Hf as [Hin Hsig]. simpl in Hsig.
      rewrite (Hall f r Hin) in Hsig. discriminate Hsig.
Qed.

Lemma significant_count_bounds_witness :
  exists R,
    analyze_drift (L := Demo.libs Demo.reference) = [Report R] /\
    significant_drifts (drift_analysis R) = 0 /\
    forall feature r,
      In (feature, r) (feature_analysis (drift_analysis R)) ->
      is_significant r = false.
Proof.
  eexists. split; [vm_compute; reflexivity|].
  split; [reflexivity|].
  refine (proj1 (proj2 (proj2 (proj2 (proj2
            (significant_count_bounds (L := Demo.libs Demo.reference)
               _ _))))) _).
  - vm_compute; reflexivity.
  - reflexivity.
Defined.

(** X10. The sample counts of [data_summary] are the sizes of the samples
    that were tested: for every feature the test ran on exactly
    [reference_samples] reference values and [production_samples]
    production values. *)
Theorem summary_counts_are_sample_sizes {L : Libs} (R : AnalysisResults) :
  analyze_drift = [Report R] ->
  forall feature r,
    In (feature, r) (feature_analysis (drift_analysis R)) ->
    exists ref_data prod_data,
      ks_2samp ref_data prod_data = Ok (ks_statistic r, p_value r) /\
      List.length ref_data = reference_samples (data_summary R) /\
      List.length prod_data = production_samples (data_summary R).
Proof.
  intros H feature r Hin. apply analyze_drift_report, analyze_body_ok in H
    as (reference_df & production_df & _ & _ & _ & Hall & _ & _ & _
        & _ & _ & _ & _ & Hsum).
  rewrite Forall_forall in Hall.
  destruct (Hall _ Hin) as (rd & pd & H1 & H2 & H3 & _).
  simpl in H1, H2, H3. exists rd, pd. rewrite Hsum. simpl.
  split; [exact H3|]. split; eapply getitem_length; eassumption.
Qed.

Lemma summary_counts_are_sample_sizes_witness :
  exists R r,
    analyze_drift (L := Demo.libs Demo.production_long) = [Report R] /\
    In ("sepal_length", r) (feature_analysis (drift_analysis R)) /\
    exists ref_data prod_data,
      ks_2samp (Libs := Demo.libs Demo.production_long) ref_data prod_data
        = Ok (ks_statistic r, p_value r) /\
      List.length ref_data = 4 /\
      List.length prod_data = 100.
Proof.
  eexists. eexists. split; [vm_compute; reflexivity|].
  split; [cbn; left; reflexivity|].
  refine ((fun H => _)
            (summary_counts_are_sample_sizes
               (L := Demo.libs Demo.production_long) _ _
               "sepal_length" _ _)); cycle 1.
  - vm_compute; reflexivity.
  - cbn; left; reflexivity.
  - destruct H as (rd & pd & H1 & H2 & H3). exists rd, pd.
    split; [exact H1|]. split; [exact H2|exact H3].
Defined.

End Counts.

Section DescriptiveStatistics.

Variable files : string -> result DataFrame.
Variable ks : list float -> list float -> result (float * float).
Variables mean1 std1 mean2 std2 : list float -> float.

Lemma forget_descriptive_dict_set (k : string) (v : FeatureDriftResult)
    (d : dict FeatureDriftResult) :
  forget_descriptive_dict (dict_set k v d)
    = dict_set k (forget_descriptive_entry v) (forget_descriptive_dict d).
Proof.
  induction d as [|[k' v'] d IH]; simpl; [reflexivity|].
  destruct (String.eqb k k'); simpl; [reflexivity|].
  f_equal. exact IH.
Qed.

(** Two iterations that differ only in the descriptive statistics raise
    the same exception or reach states that differ only there. *)
Lemma loop_body_forget (reference_df production_df : DataFrame)
    (st1 st2 : loop_state) (feature : string) :
  forget_descriptive_state st1 = forget_descriptive_state st2 ->
  match loop_body (L := Build_Libs files ks mean1 std1)
          reference_df production_df st1 feature,
        loop_body (L := Build_Libs files ks mean2 std2)
          reference_df production_df st2 feature
  with
  | Ok a, Ok b => forget_descriptive_state a = forget_descriptive_state b
  | Raise e1, Raise e2 => e1 = e2
  | _, _ => False
  end.
Proof.
  intros H. unfold loop_body. cbn [ks_2samp np_mean np_std].
  destruct (getitem reference_df feature) as [rd|e1]; [|reflexivity].
  destruct (getitem production_df feature) as [pd|e2]; [|reflexivity].
  cbn [bind].
  destruct (ks rd pd) as [[s p]|e3]; [|reflexivity].
  cbn [bind]. unfold forget_descriptive_state in *.
  cbn [st_drift_results st_overall_drift_score st_significant_drifts].
  injection H as Hd Ho Hc.
  rewrite !forget_descriptive_dict_set, Hd, Ho, Hc. reflexivity.
Qed.

Lemma for_each_forget (reference_df production_df : DataFrame)
    (features : list string) :
  forall st1 st2,
    forget_descriptive_state st1 = forget_descriptive_state st2 ->
    match for_each (loop_body (L := Build_Libs files ks mean1 std1)
                      reference_df production_df) features st1,
          for_each (loop_body (L := Build_Libs files ks mean2 std2)
                      reference_df production_df) features st2
    with
    | Ok a, Ok b => forget_descriptive_state a = forget_descriptive_state b
    | Raise e1, Raise e2 => e1 = e2
    | _, _ => False
    end.
Proof.
  induction features as [|f features IH]; intros st1 st2 H;
    cbn [for_each]; [exact H|].
  pose proof (loop_body_forget reference_df production_df st1 st2 f H)
    as Hb.
  destruct (loop_body (L := Build_Libs files ks mean1 std1)
              reference_df production_df st1 f) as [a|e1];
  destruct (loop_body (L := Build_Libs files ks mean2 std2)
              reference_df production_df st2 f) as [b|e2];
    cbn [bind]; try contradiction; [apply IH, Hb|exact Hb].
Qed.

(** X11. The descriptive statistics take no part in the analysis: with
    the same tables and the same test, two runs whose mean and standard
    deviation functions differ print documents that agree on everything but
    the four descriptive fields of each entry; scores, flags, severity,
    counts, recommendations and monitoring status are the same, and so is
    the error document if the run fails. *)
Theorem descriptive_statistics_are_not_used :
  map forget_descriptive
      (analyze_drift (L := Build_Libs files ks mean1 std1))
    = map forget_descriptive
        (analyze_drift (L := Build_Libs files ks mean2 std2)).
Proof.
  unfold analyze_drift, analyze_body. cbn [read_csv].
  destruct (files reference_path) as [reference_df|e1]; [|reflexivity].
  destruct (files production_path) as [production_df|e2]; [|reflexivity].
  cbn [bind]. cbv zeta.
  pose proof (for_each_forget reference_df (window production_df)
                feature_columns initial_state initial_state eq_refl) as H.
  destruct (for_each (loop_body (L := Build_Libs files ks mean1 std1)
                        reference_df (window production_df))
              feature_columns initial_state) as [a|e3];
  destruct (for_each (loop_body (L := Build_Libs files ks mean2 std2)
                        reference_df (window production_df))
              feature_columns initial_state) as [b|e4];
    cbn [bind]; try contradiction.
  - unfold forget_descriptive_state in H. injection H as Hd Ho Hc.
    cbn [map forget_descriptive drift_analysis data_summary
         recommendations monitoring_status overall_drift_score
         drift_severity significant_drifts total_features
         feature_analysis].
    rewrite Hd, Ho, Hc. reflexivity.
  - subst. reflexivity.
Qed.

End DescriptiveStatistics.
